(** * Cookie consent manager (js/cookies.js): a shallow embedding

    The script is a thin layer over two browser facilities: the document's
    cookie store, reached through the [document.cookie] accessor, and the DOM.
    The embedding keeps the script's own functions as Rocq functions with the
    same names and the same order of effects, and models the two browser
    facilities explicitly:

    - JavaScript strings are [string]s (sequences of 8-bit characters);
    - JavaScript numbers are integers ([Z]): the script multiplies [days] by a
      number of milliseconds and otherwise only tests numbers for truthiness;
    - a method of [CookieConsent] is a function from the controller object and
      the browser state to an [outcome]: normal completion or a thrown
      exception, each with the state reached;
    - the platform's [JSON.parse] and [JSON.stringify] are parameters. *)

From Stdlib Require Import ZArith Ascii String DecimalString Bool List.
From stdpp Require Import base option gmap strings list fin_maps.
Import ListNotations.

Local Open Scope Z_scope.

(** ** JavaScript strings *)

Module JsString.

Definition space : ascii := Ascii.ascii_of_nat 32.
Definition tab : ascii := Ascii.ascii_of_nat 9.
Definition semicolon : ascii := Ascii.ascii_of_nat 59.
Definition equals_sign : ascii := Ascii.ascii_of_nat 61.
Definition double_quote : ascii := Ascii.ascii_of_nat 34.

(** [s.split(';')] for a one-character separator: the pieces between the
    separators, in order; never the empty array. *)
Fixpoint split (sep : ascii) (s : string) : list string :=
  match s with
  | EmptyString => [EmptyString]
  | String c r =>
      if Ascii.eqb c sep then EmptyString :: split sep r
      else match split sep r with
           | piece :: pieces => String c piece :: pieces
           | [] => [String c EmptyString]
           end
  end.

(** [s.substring(n, s.length)]. *)
Fixpoint drop (n : nat) (s : string) : string :=
  match n, s with
  | O, _ => s
  | S n', String _ r => drop n' r
  | S _, EmptyString => EmptyString
  end.

(** [s.indexOf(p) === 0]: [p] occurs in [s] at position 0. *)
Fixpoint starts_with (p s : string) : bool :=
  match p, s with
  | EmptyString, _ => true
  | String a p', String b s' => Ascii.eqb a b && starts_with p' s'
  | String _ _, EmptyString => false
  end.

(** Does the character occur in the string? *)
Fixpoint mem (c : ascii) (s : string) : bool :=
  match s with
  | EmptyString => false
  | String d r => Ascii.eqb d c || mem c r
  end.

(** [pieces.join(sep)]. *)
Fixpoint join (sep : string) (pieces : list string) : string :=
  match pieces with
  | [] => EmptyString
  | [p] => p
  | p :: rest => p +:+ sep +:+ join sep rest
  end.

(** The text before the first occurrence of [c] (all of it when there is
    none) and the text after it, when there is one. *)
Fixpoint cut (c : ascii) (s : string) : string * option string :=
  match s with
  | EmptyString => (EmptyString, None)
  | String d r =>
      if Ascii.eqb d c then (EmptyString, Some r)
      else let '(before, after) := cut c r in (String d before, after)
  end.

End JsString.

(** ** Core cookie functions: reading *)

(** The loop [while (c.charAt(0) === ' ') c = c.substring(1, c.length)]. *)
Fixpoint strip_leading_spaces (c : string) : string :=
  match c with
  | String a r => if Ascii.eqb a JsString.space then strip_leading_spaces r else c
  | EmptyString => c
  end.

(** The [for] loop of [getCookie] over the array [ca]. *)
Fixpoint getCookie_scan (nameEQ : string) (ca : list string) : option string :=
  match ca with
  | [] => None
  | c0 :: rest =>
      let c := strip_leading_spaces c0 in
      if JsString.starts_with nameEQ c
      then Some (JsString.drop (String.length nameEQ) c)
      else getCookie_scan nameEQ rest
  end.

(** [getCookie(name)] on the text that [document.cookie] reads as;
    [None] is [null]. *)
Definition getCookie_in (document_cookie : string) (name : string) : option string :=
  let nameEQ := name +:+ "=" in
  let ca := JsString.split JsString.semicolon document_cookie in
  getCookie_scan nameEQ ca.

(** ** The platform's [Date]

    A time value is a number of milliseconds since the epoch, in UTC. *)

Module JsDate.

Definition msPerDay : Z := 24 * 60 * 60 * 1000.

(** Year, month (1..12) and day of the month of a day number counted from
    1970-01-01, in the proleptic Gregorian calendar. *)
Definition civil_from_days (z : Z) : Z * Z * Z :=
  let z := z + 719468 in
  let era := z / 146097 in
  let doe := z - era * 146097 in
  let yoe := (doe - doe / 1460 + doe / 36524 - doe / 146096) / 365 in
  let doy := doe - (365 * yoe + yoe / 4 - yoe / 100) in
  let mp := (5 * doy + 2) / 153 in
  let d := doy - (153 * mp + 2) / 5 + 1 in
  let m := if mp <? 10 then mp + 3 else mp - 9 in
  let y := yoe + era * 400 in
  (if m <=? 2 then y + 1 else y, m, d).

(** The inverse: the day number of a calendar date. *)
Definition days_from_civil (y m d : Z) : Z :=
  let y := if m <=? 2 then y - 1 else y in
  let era := y / 400 in
  let yoe := y - era * 400 in
  let doy := (153 * (if 2 <? m then m - 3 else m + 9) + 2) / 5 + d - 1 in
  let doe := yoe * 365 + yoe / 4 - yoe / 100 + doy in
  era * 146097 + doe - 719468.

Definition day_names : list string :=
  ["Sun"; "Mon"; "Tue"; "Wed"; "Thu"; "Fri"; "Sat"].
Definition month_names : list string :=
  ["Jan"; "Feb"; "Mar"; "Apr"; "May"; "Jun";
   "Jul"; "Aug"; "Sep"; "Oct"; "Nov"; "Dec"].

Definition decimal (n : Z) : string :=
  NilZero.string_of_uint (N.to_uint (Z.to_N n)).

(** Decimal digits of a natural number, zero-padded to [width]. *)
Definition padded (width : nat) (n : Z) : string :=
  let s := decimal n in
  JsString.join "" (repeat "0"%string (width - String.length s)) +:+ s.

(** [date.toUTCString()] of the date whose time value is [t], after the
    clipping [setTime] applies. *)
Definition toUTCString (t : Z) : string :=
  if 8640000000000000 <? Z.abs t then "Invalid Date"
  else
    let day := t / msPerDay in
    let ms := t mod msPerDay in
    let '(y, m, d) := civil_from_days day in
    nth (Z.to_nat ((day + 4) mod 7)) day_names "" +:+ ", " +:+
    padded 2 d +:+ " " +:+
    nth (Z.to_nat (m - 1)) month_names "" +:+ " " +:+
    (if y <? 0 then "-" +:+ padded 4 (- y) else padded 4 y) +:+ " " +:+
    padded 2 (ms / 3600000) +:+ ":" +:+
    padded 2 (ms / 60000 mod 60) +:+ ":" +:+
    padded 2 (ms / 1000 mod 60) +:+ " GMT".

(** [date.toISOString()]; it throws a [RangeError] on an invalid date,
    which is [None] here. *)
Definition toISOString (t : Z) : option string :=
  if 8640000000000000 <? Z.abs t then None
  else
    let day := t / msPerDay in
    let ms := t mod msPerDay in
    let '(y, m, d) := civil_from_days day in
    Some ((if y <? 0 then "-" +:+ padded 6 (- y)
           else if 9999 <? y then "+" +:+ padded 6 y else padded 4 y) +:+ "-" +:+
          padded 2 m +:+ "-" +:+ padded 2 d +:+ "T" +:+
          padded 2 (ms / 3600000) +:+ ":" +:+
          padded 2 (ms / 60000 mod 60) +:+ ":" +:+
          padded 2 (ms / 1000 mod 60) +:+ "." +:+
          padded 3 (ms mod 1000) +:+ "Z").

End JsDate.

(** ** Core cookie functions: writing *)

(** [value || ""] for a string [value]. *)
Definition or_empty (value : string) : string :=
  match value with
  | EmptyString => ""
  | _ => value
  end.

(** [if (days)]: a supplied number is truthy unless it is zero; an omitted
    argument is [undefined]. *)
Definition days_truthy (days : option Z) : bool :=
  match days with
  | Some d => negb (d =? 0)
  | None => false
  end.

(** The local [expires] of [setCookie], at time value [now]. *)
Definition setCookie_expires (now : Z) (days : option Z) : string :=
  match days with
  | Some d =>
      if days_truthy days
      then "; expires=" +:+ JsDate.toUTCString (now + d * 24 * 60 * 60 * 1000)
      else ""
  | None => ""
  end.

(** The [cookieString] that [setCookie] assigns to [document.cookie], on a page
    whose [window.location.protocol] is [protocol]. *)
Definition setCookie_string (now : Z) (protocol : string)
    (name value : string) (days : option Z) (secure : bool) (sameSite : string)
    : string :=
  let expires := setCookie_expires now days in
  let cookieString := name +:+ "=" +:+ or_empty value +:+ expires +:+ "; path=/" in
  let cookieString :=
    if secure && String.eqb protocol "https:"
    then cookieString +:+ "; Secure" else cookieString in
  cookieString +:+ "; SameSite=" +:+ sameSite.

(** The defaults of the parameters [secure] and [sameSite]. *)
Definition default_secure : bool := true.
Definition default_sameSite : string := "Strict".

(** ** The browser's cookie store behind [document.cookie]

    The accessor is the browser's, not the script's. Assigning a string to it
    runs the user agent's set-cookie algorithm (RFC 6265, section 5.2) and
    reading it serialises the stored cookies (section 5.4). The model keeps what
    decides which text the script reads back: the name and value of each stored
    cookie and its expiry time. Every write of this script uses the path [/] of
    the one document it runs in, so cookies are identified by their name. *)

Module CookieStore.

Record cookie := Cookie {
  cookie_name : string;
  cookie_value : string;
  cookie_expires : option Z   (* [None]: a session cookie *)
}.

Definition is_wsp (c : ascii) : bool :=
  Ascii.eqb c JsString.space || Ascii.eqb c JsString.tab.

Fixpoint trim_left (s : string) : string :=
  match s with
  | String c r => if is_wsp c then trim_left r else s
  | EmptyString => s
  end.

(** Removes trailing spaces and tabs. *)
Fixpoint trim_right (s : string) : string :=
  match s with
  | EmptyString => EmptyString
  | String c r =>
      match trim_right r with
      | EmptyString => if is_wsp c then EmptyString else String c EmptyString
      | r' => String c r'
      end
  end.

Definition trim (s : string) : string := trim_right (trim_left s).

Definition lower (c : ascii) : ascii :=
  let n := Ascii.nat_of_ascii c in
  if ((65 <=? n) && (n <=? 90))%nat then Ascii.ascii_of_nat (n + 32) else c.

Fixpoint lowercase (s : string) : string :=
  match s with
  | EmptyString => EmptyString
  | String c r => String (lower c) (lowercase r)
  end.

Definition is_digit (c : ascii) : bool :=
  let n := Ascii.nat_of_ascii c in ((48 <=? n) && (n <=? 57))%nat.

(** The delimiters of a cookie date (RFC 6265, section 5.1.1). *)
Definition is_delimiter (c : ascii) : bool :=
  let n := Ascii.nat_of_ascii c in
  ((n =? 9) || ((32 <=? n) && (n <=? 47)) || ((59 <=? n) && (n <=? 64))
   || ((91 <=? n) && (n <=? 96)) || ((123 <=? n) && (n <=? 126)))%nat.

(** The non-empty runs of non-delimiters. *)
Fixpoint date_tokens (cur : string) (s : string) : list string :=
  let flush := match cur with EmptyString => [] | _ => [cur] end in
  match s with
  | EmptyString => flush
  | String c r =>
      if is_delimiter c then flush ++ date_tokens EmptyString r
      else date_tokens (cur +:+ String c EmptyString) r
  end.

(** The leading run of digits: its value, its length and the rest. *)
Fixpoint digits (acc : Z) (len : nat) (s : string) : Z * nat * string :=
  match s with
  | String c r =>
      if is_digit c
      then digits (10 * acc + Z.of_nat (Ascii.nat_of_ascii c - 48)) (S len) r
      else (acc, len, s)
  | EmptyString => (acc, len, s)
  end.

(** A number of [lo] to [hi] digits, followed by a non-digit or nothing. *)
Definition number_field (lo hi : nat) (s : string) : option (Z * string) :=
  let '(v, len, rest) := digits 0 0 s in
  if ((lo <=? len) && (len <=? hi))%nat then Some (v, rest) else None.

(** [hms-time]: three fields of one or two digits separated by colons. *)
Definition time_token (s : string) : option (Z * Z * Z) :=
  match number_field 1 2 s with
  | Some (h, String c1 r1) =>
      if Ascii.eqb c1 ":" then
        match number_field 1 2 r1 with
        | Some (m, String c2 r2) =>
            if Ascii.eqb c2 ":" then
              match number_field 1 2 r2 with
              | Some (sec, _) => Some (h, m, sec)
              | None => None
              end
            else None
        | _ => None
        end
      else None
  | _ => None
  end.

Fixpoint index_of (x : string) (l : list string) (i : Z) : option Z :=
  match l with
  | [] => None
  | y :: r => if String.eqb x y then Some i else index_of x r (i + 1)
  end.

Definition month_token (s : string) : option Z :=
  index_of (lowercase (String.substring 0 3 s))
           (map lowercase JsDate.month_names) 1.

Record date_fields := DateFields {
  found_time : option (Z * Z * Z);
  found_day : option Z;
  found_month : option Z;
  found_year : option Z
}.

(** One token of the date, tried as a time, a day of the month, a month and
    a year, in this order, each only while it has not been found. *)
Definition date_step (f : date_fields) (tok : string) : date_fields :=
  match found_time f, time_token tok with
  | None, Some t =>
      DateFields (Some t) (found_day f) (found_month f) (found_year f)
  | _, _ =>
  match found_day f, number_field 1 2 tok with
  | None, Some (d, _) =>
      DateFields (found_time f) (Some d) (found_month f) (found_year f)
  | _, _ =>
  match found_month f, month_token tok with
  | None, Some m =>
      DateFields (found_time f) (found_day f) (Some m) (found_year f)
  | _, _ =>
  match found_year f, number_field 2 4 tok with
  | None, Some (y, _) =>
      DateFields (found_time f) (found_day f) (found_month f) (Some y)
  | _, _ => f
  end end end end.

(** The time value of a cookie date, when the text is one. *)
Definition parse_date (s : string) : option Z :=
  let f := fold_left date_step (date_tokens EmptyString s)
                     (DateFields None None None None) in
  match found_time f, found_day f, found_month f, found_year f with
  | Some (h, mi, sec), Some d, Some mo, Some y =>
      let y := if (70 <=? y) && (y <=? 99) then y + 1900
               else if (0 <=? y) && (y <=? 69) then y + 2000 else y in
      if (d <? 1) || (31 <? d) || (y <? 1601)
         || (23 <? h) || (59 <? mi) || (59 <? sec)
      then None
      else
        let day := JsDate.days_from_civil y mo d in
        match JsDate.civil_from_days day with
        | (y', mo', d') =>
            if (y' =? y) && (mo' =? mo) && (d' =? d)
            then Some (day * JsDate.msPerDay + h * 3600000 + mi * 60000 + sec * 1000)
            else None
        end
  | _, _, _, _ => None
  end.

(** The expiry time the attributes give: that of the last [Expires]
    attribute whose value is a date; the other attributes (path, Secure,
    SameSite) do not enter the model. *)
Fixpoint attributes_expiry (attrs : list string) (acc : option Z) : option Z :=
  match attrs with
  | [] => acc
  | av :: rest =>
      let '(attr_name, attr_value) := JsString.cut JsString.equals_sign av in
      let acc' :=
        if String.eqb (lowercase (trim attr_name)) "expires"
        then match parse_date (trim (default EmptyString attr_value)) with
             | Some t => Some t
             | None => acc
             end
        else acc in
      attributes_expiry rest acc'
  end.

(** Has a cookie with this expiry expired at [now]? *)
Definition expired (now : Z) (expiry : option Z) : bool :=
  match expiry with
  | Some t => t <=? now
  | None => false
  end.

Fixpoint remove (name : string) (jar : list cookie) : list cookie :=
  match jar with
  | [] => []
  | c :: rest =>
      if String.eqb (cookie_name c) name then remove name rest
      else c :: remove name rest
  end.

(** Stores a cookie: an older cookie of the same name keeps its place in
    the store and takes the new value and expiry; a new name goes last. *)
Fixpoint put (new : cookie) (jar : list cookie) : list cookie :=
  match jar with
  | [] => [new]
  | c :: rest =>
      if String.eqb (cookie_name c) (cookie_name new)
      then new :: remove (cookie_name new) rest
      else c :: put new rest
  end.

(** [document.cookie = s] at time [now]. *)
Definition assign (now : Z) (s : string) (jar : list cookie) : list cookie :=
  match JsString.split JsString.semicolon s with
  | [] => jar
  | name_value_pair :: attrs =>
      match JsString.cut JsString.equals_sign name_value_pair with
      | (_, None) => jar
      | (raw_name, Some raw_value) =>
          let name := trim raw_name in
          let value := trim raw_value in
          match name with
          | EmptyString => jar
          | _ =>
              let expiry := attributes_expiry attrs None in
              if expired now expiry then remove name jar
              else put (Cookie name value expiry) jar
          end
      end
  end.

Definition render (c : cookie) : string :=
  cookie_name c +:+ "=" +:+ cookie_value c.

Definition live (now : Z) (c : cookie) : bool :=
  negb (expired now (cookie_expires c)).

(** Reading [document.cookie] at time [now]. *)
Definition read (now : Z) (jar : list cookie) : string :=
  JsString.join "; " (map render (List.filter (live now) jar)).

End CookieStore.

(** ** JavaScript values that reach the preference object

    The script stores booleans in [this.preferences]; [loadPreferences] merges
    whatever [JSON.parse] returns for the stored text, so any JSON value can
    end up as the value of a category. *)

#[local] Set Warnings "-register-all".

Inductive json :=
| JNull
| JBool (b : bool)
| JNumber (n : Z)
| JString (s : string)
| JArray (items : list json)
| JObject (members : list (string * json)).

(** The truthiness test of [if (...)] and [||]. *)
Definition truthy (v : json) : bool :=
  match v with
  | JNull => false
  | JBool b => b
  | JNumber n => negb (n =? 0)
  | JString s => negb (String.eqb s "")
  | JArray _ | JObject _ => true
  end.

(** Truthiness of a property read: a missing property reads [undefined]. *)
Definition truthy_property (o : option json) : bool :=
  match o with
  | Some v => truthy v
  | None => false
  end.

(** Truthiness of a string ([if (consent)], [if (prefs)], ...): [null] and
    the empty string are falsy. *)
Definition truthy_string (o : option string) : bool :=
  match o with
  | Some s => negb (String.eqb s "")
  | None => false
  end.

Fixpoint string_properties (i : nat) (s : string) : list (string * json) :=
  match s with
  | EmptyString => []
  | String c r =>
      (JsDate.decimal (Z.of_nat i), JString (String c EmptyString))
        :: string_properties (S i) r
  end.

Fixpoint array_properties (i : nat) (items : list json) : list (string * json) :=
  match items with
  | [] => []
  | v :: r => (JsDate.decimal (Z.of_nat i), v) :: array_properties (S i) r
  end.

(** The own enumerable properties that the spread [...v] copies, in order. *)
Definition own_properties (v : json) : list (string * json) :=
  match v with
  | JObject members => members
  | JArray items => array_properties 0 items
  | JString s => string_properties 0 s
  | JNull | JBool _ | JNumber _ => []
  end.

(** [{ ...target, ...v }]: later properties overwrite earlier ones. *)
Definition spread (target : gmap string json) (props : list (string * json))
    : gmap string json :=
  fold_left (λ m kv, <[kv.1 := kv.2]> m) props target.

(** The category names of [CookieCategories]. *)
Module CookieCategories.
Definition NECESSARY : string := "necessary".
Definition FUNCTIONAL : string := "functional".
Definition ANALYTICS : string := "analytics".
Definition MARKETING : string := "marketing".
End CookieCategories.
Import CookieCategories.

(** ** The DOM and the rest of the browser state *)

(** The six listeners that [setupEventListeners] registers. *)
Inductive handler :=
| OnAcceptAll | OnRejectAll | OnOpenSettings
| OnSaveCustom | OnCloseModal | OnThemeChange.

Record element := Element {
  style_display : string;
  checked : bool;
  value : string;
  listeners : list (string * handler)
}.

Inductive console_entry :=
| ConsoleLog (message : string)
| ConsoleLogPageView (page title : string) (timestamp : option string)
| ConsoleLogEvent (eventName : string) (eventData : json)
| ConsoleWarn (message : string).

Inductive gtag_call :=
| GtagConsentUpdate (storage granted : string)
| GtagEvent (eventName : string) (eventData : json).

Inductive exn :=
| TypeError (message : string)
| DOMException (name : string).

Record browser := Browser {
  (* what the script only reads *)
  clock : Z;                       (* the time value of [new Date()] *)
  location_protocol : string;
  location_pathname : string;
  document_title : string;
  gtag_defined : bool;             (* [typeof gtag !== 'undefined'] *)
  (* what it changes *)
  cookie_jar : list CookieStore.cookie;
  cookie_writes : list string;     (* every string assigned to [document.cookie] *)
  document_elements : gmap string element;  (* the elements that have an id *)
  body_className : string;         (* [document.body.className] *)
  html_lang : string;              (* [document.documentElement.lang] *)
  html_fontSize : string;          (* [documentElement.style.fontSize], as assigned *)
  console : list console_entry;
  gtag_calls : list gtag_call
}.

Definition document_cookie (b : browser) : string :=
  CookieStore.read (clock b) (cookie_jar b).

(** [document.cookie = s]. *)
Definition document_cookie_assign (s : string) (b : browser) : browser :=
  Browser (clock b) (location_protocol b) (location_pathname b)
          (document_title b) (gtag_defined b)
          (CookieStore.assign (clock b) s (cookie_jar b))
          (cookie_writes b ++ [s])
          (document_elements b) (body_className b) (html_lang b) (html_fontSize b)
          (console b) (gtag_calls b).

Definition set_elements (els : gmap string element) (b : browser) : browser :=
  Browser (clock b) (location_protocol b) (location_pathname b)
          (document_title b) (gtag_defined b) (cookie_jar b) (cookie_writes b)
          els (body_className b) (html_lang b) (html_fontSize b)
          (console b) (gtag_calls b).

Definition set_body_className (cn : string) (b : browser) : browser :=
  Browser (clock b) (location_protocol b) (location_pathname b)
          (document_title b) (gtag_defined b) (cookie_jar b) (cookie_writes b)
          (document_elements b) cn (html_lang b) (html_fontSize b)
          (console b) (gtag_calls b).

Definition set_html_lang (lang : string) (b : browser) : browser :=
  Browser (clock b) (location_protocol b) (location_pathname b)
          (document_title b) (gtag_defined b) (cookie_jar b) (cookie_writes b)
          (document_elements b) (body_className b) lang (html_fontSize b)
          (console b) (gtag_calls b).

Definition set_html_fontSize (size : string) (b : browser) : browser :=
  Browser (clock b) (location_protocol b) (location_pathname b)
          (document_title b) (gtag_defined b) (cookie_jar b) (cookie_writes b)
          (document_elements b) (body_className b) (html_lang b) size
          (console b) (gtag_calls b).

Definition console_add (e : console_entry) (b : browser) : browser :=
  Browser (clock b) (location_protocol b) (location_pathname b)
          (document_title b) (gtag_defined b) (cookie_jar b) (cookie_writes b)
          (document_elements b) (body_className b) (html_lang b) (html_fontSize b)
          (console b ++ [e]) (gtag_calls b).

Definition gtag (c : gtag_call) (b : browser) : browser :=
  Browser (clock b) (location_protocol b) (location_pathname b)
          (document_title b) (gtag_defined b) (cookie_jar b) (cookie_writes b)
          (document_elements b) (body_className b) (html_lang b) (html_fontSize b)
          (console b) (gtag_calls b ++ [c]).

Definition getElementById (id : string) (b : browser) : option element :=
  document_elements b !! id.

(** [el.style.display = d] on the element with this id. *)
Definition set_style_display (id : string) (d : string) (b : browser) : browser :=
  set_elements (alter (λ el, Element d (checked el) (value el) (listeners el))
                      id (document_elements b)) b.

(** [el.checked = c]. *)
Definition set_checked (id : string) (c : bool) (b : browser) : browser :=
  set_elements (alter (λ el, Element (style_display el) c (value el) (listeners el))
                      id (document_elements b)) b.

(** [el.value = v]. *)
Definition set_value (id : string) (v : string) (b : browser) : browser :=
  set_elements (alter (λ el, Element (style_display el) (checked el) v (listeners el))
                      id (document_elements b)) b.

(** [document.getElementById(id)?.addEventListener(type, h)]: nothing when
    the element is missing. *)
Definition addEventListener_opt (id type : string) (h : handler) (b : browser) : browser :=
  set_elements (alter (λ el, Element (style_display el) (checked el) (value el)
                                     (listeners el ++ [(type, h)]))
                      id (document_elements b)) b.

(** *** The class attribute of [document.body] *)

Module ClassList.

(** [\w] of a regular expression. *)
Definition is_word (c : ascii) : bool :=
  let n := Ascii.nat_of_ascii c in
  (((48 <=? n) && (n <=? 57)) || ((65 <=? n) && (n <=? 90))
   || ((97 <=? n) && (n <=? 122)) || (n =? 95))%nat.

Fixpoint skip_word (s : string) : string :=
  match s with
  | String c r => if is_word c then skip_word r else s
  | EmptyString => s
  end.

(** The length of the match of [\w*-theme] at the start of [s]: the word
    characters are taken greedily, and no shorter run can be followed by
    the hyphen. *)
Definition theme_match (s : string) : option nat :=
  let rest := skip_word s in
  if JsString.starts_with "-theme" rest
  then Some (String.length s - String.length rest + 6)%nat
  else None.

(** [s.replace(/\w*-theme/g, '')]; [skip] characters of a match are still
    to be dropped. *)
Fixpoint remove_themes (skip : nat) (s : string) : string :=
  match s with
  | EmptyString => EmptyString
  | String c r =>
      match skip with
      | S k => remove_themes k r
      | O =>
          match theme_match s with
          | Some n => remove_themes (Nat.pred n) r
          | None => String c (remove_themes O r)
          end
      end
  end.

Definition is_ascii_whitespace (c : ascii) : bool :=
  let n := Ascii.nat_of_ascii c in
  ((n =? 9) || (n =? 10) || (n =? 12) || (n =? 13) || (n =? 32))%nat.

Fixpoint has_whitespace (s : string) : bool :=
  match s with
  | EmptyString => false
  | String c r => is_ascii_whitespace c || has_whitespace r
  end.

(** The tokens of a class attribute, split on ASCII whitespace. *)
Fixpoint split_tokens (cur : string) (s : string) : list string :=
  let flush := match cur with EmptyString => [] | _ => [cur] end in
  match s with
  | EmptyString => flush
  | String c r =>
      if is_ascii_whitespace c then flush ++ split_tokens EmptyString r
      else split_tokens (cur +:+ String c EmptyString) r
  end.

Definition has_token (t : string) (ts : list string) : bool :=
  existsb (String.eqb t) ts.

(** The ordered set of the tokens: a later duplicate is not added. *)
Definition token_set (className : string) : list string :=
  fold_left (λ acc t, if has_token t acc then acc else acc ++ [t])
            (split_tokens EmptyString className) [].

(** [classList.add(token)] on an element whose class attribute reads
    [className]: the new attribute value, or the exception thrown. *)
Definition add (token : string) (className : string) : exn + string :=
  match token with
  | EmptyString => inl (DOMException "SyntaxError")
  | _ =>
      if has_whitespace token then inl (DOMException "InvalidCharacterError")
      else
        let ts := token_set className in
        inr (JsString.join " " (if has_token token ts then ts else ts ++ [token]))
  end.

End ClassList.

(** ** The consent controller *)

(** The fields of a [CookieConsent] object. *)
Record CookieConsent := Controller {
  consentGiven : bool;
  preferences : gmap string json
}.

(** How a method call ends: normally or by an exception, in either case with
    the controller and the browser as the call left them. *)
Inductive outcome :=
| Normal (this : CookieConsent) (b : browser)
| Thrown (e : exn) (this : CookieConsent) (b : browser).

Definition method : Type := CookieConsent → browser → outcome.

Definition outcome_this (o : outcome) : CookieConsent :=
  match o with Normal this _ | Thrown _ this _ => this end.

Definition outcome_browser (o : outcome) : browser :=
  match o with Normal _ b | Thrown _ _ b => b end.

Definition completes (o : outcome) : bool :=
  match o with Normal _ _ => true | Thrown _ _ _ => false end.

(** Statement sequencing: an exception skips the rest. *)
Definition and_then (m1 m2 : method) : method :=
  λ this b,
    match m1 this b with
    | Normal this' b' => m2 this' b'
    | Thrown e this' b' => Thrown e this' b'
    end.

Declare Scope method_scope.
Delimit Scope method_scope with method.
Bind Scope method_scope with method.
Notation "m1 ;; m2" := (and_then m1 m2)
  (at level 100, m2 at level 200, right associativity) : method_scope.

(** A statement that only changes the browser. *)
Definition effect (f : browser → browser) : method :=
  λ this b, Normal this (f b).

(** A statement that only changes the controller. *)
Definition assign_this (f : CookieConsent → CookieConsent) : method :=
  λ this b, Normal (f this) b.

Definition skip : method := λ this b, Normal this b.

(** [if (cond) { body }] *)
Definition when (cond : CookieConsent → browser → bool) (body : method) : method :=
  λ this b, if cond this b then body this b else Normal this b.

Definition set_preferences (p : gmap string json) (this : CookieConsent) : CookieConsent :=
  Controller (consentGiven this) p.

Definition set_consentGiven (g : bool) (this : CookieConsent) : CookieConsent :=
  Controller g (preferences this).

(** [this.preferences[category]] as a condition. *)
Definition allowed (category : string) (this : CookieConsent) : bool :=
  truthy_property (preferences this !! category).

(** [setCookie(name, value, days, secure, sameSite)] *)
Definition setCookie (name value : string) (days : option Z)
    (secure : bool) (sameSite : string) (b : browser) : browser :=
  document_cookie_assign
    (setCookie_string (clock b) (location_protocol b) name value days secure sameSite) b.

(** [getCookie(name)] *)
Definition getCookie (name : string) (b : browser) : option string :=
  getCookie_in (document_cookie b) name.

(** [eraseCookie(name)] *)
Definition eraseCookie (name : string) (b : browser) : browser :=
  document_cookie_assign (name +:+ "=; Path=/; Expires=Thu, 01 Jan 1970 00:00:01 GMT;") b.

Section Controller.

(** [JSON.parse]: the value, or [None] when it throws a [SyntaxError]. *)
Variable JSON_parse : string → option json.
(** [JSON.stringify] of a preference object. *)
Variable JSON_stringify : gmap string json → string.

Local Open Scope method_scope.

(** The preference object of the constructor and of [rejectAll]. *)
Definition default_preferences : gmap string json :=
  <[MARKETING := JBool false]>
    (<[ANALYTICS := JBool false]>
      (<[FUNCTIONAL := JBool false]>
        (<[NECESSARY := JBool true]> ∅))).

(** The preference object of [acceptAll]. *)
Definition all_preferences : gmap string json :=
  <[MARKETING := JBool true]>
    (<[ANALYTICS := JBool true]>
      (<[FUNCTIONAL := JBool true]>
        (<[NECESSARY := JBool true]> ∅))).

Definition showConsentBanner : method :=
  λ this b,
    let banner := getElementById "cookie-banner" b in
    match banner with
    | Some _ => Normal this (set_style_display "cookie-banner" "block" b)
    | None => Normal this b
    end.

Definition hideConsentBanner : method :=
  λ this b,
    let banner := getElementById "cookie-banner" b in
    match banner with
    | Some _ => Normal this (set_style_display "cookie-banner" "none" b)
    | None => Normal this b
    end.

Definition closeSettingsModal : method :=
  λ this b,
    let modal := getElementById "cookie-settings-modal" b in
    match modal with
    | Some _ => Normal this (set_style_display "cookie-settings-modal" "none" b)
    | None => Normal this b
    end.

(** [document.getElementById(id).checked = v]: a [TypeError] when there is
    no such element. *)
Definition assign_checked (id : string) (v : option json) : method :=
  λ this b,
    match getElementById id b with
    | Some _ => Normal this (set_checked id (truthy_property v) b)
    | None => Thrown (TypeError "Cannot set properties of null") this b
    end.

Definition openSettingsModal : method :=
  λ this b,
    let modal := getElementById "cookie-settings-modal" b in
    match modal with
    | Some _ =>
        (assign_checked "functional-cookies" (preferences this !! FUNCTIONAL) ;;
         assign_checked "analytics-cookies" (preferences this !! ANALYTICS) ;;
         assign_checked "marketing-cookies" (preferences this !! MARKETING) ;;
         effect (set_style_display "cookie-settings-modal" "block")) this b
    | None => Normal this b
    end.

Definition applyTheme (theme : string) : method :=
  λ this b,
    let b := set_body_className (ClassList.remove_themes 0 (body_className b)) b in
    match ClassList.add (theme +:+ "-theme") (body_className b) with
    | inl e => Thrown e this b
    | inr cn =>
        let b := set_body_className cn b in
        let themeSelector := getElementById "theme-selector" b in
        match themeSelector with
        | Some _ => Normal this (set_value "theme-selector" theme b)
        | None => Normal this b
        end
    end.

Definition saveTheme (theme : string) : method :=
  when (λ this _, allowed FUNCTIONAL this)
    (effect (setCookie "site_theme" theme (Some 365) default_secure default_sameSite) ;;
     applyTheme theme).

Definition setLanguage (lang : string) : method :=
  when (λ this _, allowed FUNCTIONAL this)
    (effect (setCookie "preferred_language" lang (Some 365) default_secure default_sameSite) ;;
     effect (set_html_lang lang)).

Definition setFontSize (size : string) : method :=
  when (λ this _, allowed FUNCTIONAL this)
    (effect (setCookie "font_size" size (Some 365) default_secure default_sameSite) ;;
     effect (set_html_fontSize size)).

Definition loadUserPreferences : method :=
  (λ this b,
     let language := getCookie "preferred_language" b in
     match language with
     | Some lang => if truthy_string language then setLanguage lang this b
                    else Normal this b
     | None => Normal this b
     end) ;;
  (λ this b,
     let fontSize := getCookie "font_size" b in
     match fontSize with
     | Some size => if truthy_string fontSize then setFontSize size this b
                    else Normal this b
     | None => Normal this b
     end).

Definition trackPageView : method :=
  when (λ this _, allowed ANALYTICS this)
    (λ this b,
       Normal this
         (console_add (ConsoleLogPageView (location_pathname b) (document_title b)
                                          (JsDate.toISOString (clock b))) b)).

Definition trackEvent (eventName : string) (eventData : option json) : method :=
  let eventData := default (JObject []) eventData in
  when (λ this _, allowed ANALYTICS this)
    (effect (console_add (ConsoleLogEvent eventName eventData)) ;;
     when (λ _ b, gtag_defined b) (effect (gtag (GtagEvent eventName eventData)))).

Definition enableFunctionalCookies : method :=
  effect (console_add (ConsoleLog "Functional cookies enabled")) ;;
  (λ this b,
     let savedTheme := getCookie "site_theme" b in
     match savedTheme with
     | Some theme => if truthy_string savedTheme then applyTheme theme this b
                     else Normal this b
     | None => Normal this b
     end) ;;
  loadUserPreferences.

Definition enableAnalytics : method :=
  effect (console_add (ConsoleLog "Analytics cookies enabled")) ;;
  when (λ _ b, gtag_defined b)
    (effect (gtag (GtagConsentUpdate "analytics_storage" "granted"))) ;;
  trackPageView.

Definition enableMarketing : method :=
  effect (console_add (ConsoleLog "Marketing cookies enabled")) ;;
  when (λ _ b, gtag_defined b)
    (effect (gtag (GtagConsentUpdate "ad_storage" "granted"))).

Definition applyCookieSettings : method :=
  when (λ this _, allowed FUNCTIONAL this) enableFunctionalCookies ;;
  when (λ this _, allowed ANALYTICS this) enableAnalytics ;;
  when (λ this _, allowed MARKETING this) enableMarketing.

Definition saveConsent : method :=
  effect (setCookie "cookie_consent" "given" (Some 365) default_secure default_sameSite) ;;
  (λ this b,
     Normal this (setCookie "cookie_preferences" (JSON_stringify (preferences this))
                            (Some 365) default_secure default_sameSite b)) ;;
  assign_this (set_consentGiven true).

Definition loadPreferences : method :=
  λ this b,
    let prefs := getCookie "cookie_preferences" b in
    match prefs with
    | Some text =>
        if truthy_string prefs then
          match JSON_parse text with
          | Some parsed =>
              Normal (set_preferences
                        (spread (preferences this) (own_properties parsed)) this) b
          | None =>
              Normal this
                (console_add (ConsoleWarn "Failed to parse cookie preferences") b)
          end
        else Normal this b
    | None => Normal this b
    end.

Definition acceptAll : method :=
  assign_this (set_preferences all_preferences) ;;
  saveConsent ;;
  applyCookieSettings ;;
  hideConsentBanner.

Definition rejectAll : method :=
  assign_this (set_preferences default_preferences) ;;
  saveConsent ;;
  applyCookieSettings ;;
  hideConsentBanner.

(** [document.getElementById(id)?.checked || false] *)
Definition checkbox_or_false (id : string) (b : browser) : bool :=
  match getElementById id b with
  | Some el => checked el || false
  | None => false
  end.

Definition saveCustomPreferences : method :=
  (λ this b,
     Normal (set_preferences
               (<[FUNCTIONAL := JBool (checkbox_or_false "functional-cookies" b)]>
                  (preferences this)) this) b) ;;
  (λ this b,
     Normal (set_preferences
               (<[ANALYTICS := JBool (checkbox_or_false "analytics-cookies" b)]>
                  (preferences this)) this) b) ;;
  (λ this b,
     Normal (set_preferences
               (<[MARKETING := JBool (checkbox_or_false "marketing-cookies" b)]>
                  (preferences this)) this) b) ;;
  saveConsent ;;
  applyCookieSettings ;;
  hideConsentBanner ;;
  closeSettingsModal.

Definition setupEventListeners : method :=
  effect (addEventListener_opt "accept-all-cookies" "click" OnAcceptAll) ;;
  effect (addEventListener_opt "reject-all-cookies" "click" OnRejectAll) ;;
  effect (addEventListener_opt "cookie-settings-btn" "click" OnOpenSettings) ;;
  effect (addEventListener_opt "save-cookie-preferences" "click" OnSaveCustom) ;;
  effect (addEventListener_opt "close-cookie-modal" "click" OnCloseModal) ;;
  effect (addEventListener_opt "theme-selector" "change" OnThemeChange).

Definition init : method :=
  (λ this b,
     let consent := getCookie "cookie_consent" b in
     if truthy_string consent then
       (assign_this (set_consentGiven true) ;;
        loadPreferences ;;
        applyCookieSettings) this b
     else showConsentBanner this b) ;;
  setupEventListeners.

(** [new CookieConsent()] *)
Definition constructor (b : browser) : outcome :=
  init (Controller false default_preferences) b.

(** *** The page: the global [window.cookieConsent] and the entry points *)

Record page := Page {
  window_cookieConsent : option CookieConsent;
  window_browser : browser
}.

(** How a call from the page ends: the page reached, and the exception that
    escaped, if any. *)
Definition page_outcome : Type := option exn * page.

(** Runs a method of [window.cookieConsent]. *)
Definition on_controller (m : method) (cc : CookieConsent) (p : page) : page_outcome :=
  match m cc (window_browser p) with
  | Normal this b => (None, Page (Some this) b)
  | Thrown e this b => (Some e, Page (Some this) b)
  end.

(** The [DOMContentLoaded] listener: the global is assigned only when the
    constructor returns. *)
Definition DOMContentLoaded (p : page) : page_outcome :=
  match constructor (window_browser p) with
  | Normal this b => (None, Page (Some this) b)
  | Thrown e _ b => (Some e, Page (window_cookieConsent p) b)
  end.

(** [window.trackEvent(eventName, eventData)] *)
Definition window_trackEvent (eventName : string) (eventData : option json)
    (p : page) : page_outcome :=
  match window_cookieConsent p with
  | Some cc => on_controller (trackEvent eventName eventData) cc p
  | None => (None, p)
  end.

(** [window.saveUserPreference(key, value, days = 365)] *)
Definition window_saveUserPreference (key value : string) (days : option Z)
    (p : page) : page_outcome :=
  let days := default 365 days in
  match window_cookieConsent p with
  | Some cc =>
      if allowed FUNCTIONAL cc
      then (None, Page (Some cc)
                    (setCookie key value (Some days) default_secure default_sameSite
                               (window_browser p)))
      else (None, p)
  | None => (None, p)
  end.

(** The body of a registered listener. *)
Definition run_handler (h : handler) (target_value : string) : method :=
  match h with
  | OnAcceptAll => acceptAll
  | OnRejectAll => rejectAll
  | OnOpenSettings => openSettingsModal
  | OnSaveCustom => saveCustomPreferences
  | OnCloseModal => closeSettingsModal
  | OnThemeChange => saveTheme target_value
  end.

(** The listeners of one event on one element run in the order of their
    registration; an exception that escapes one is reported and the next
    one runs. [e.target.value] is read when the listener runs. *)
Fixpoint run_listeners (hs : list handler) (id : string)
    (cc : CookieConsent) (b : browser) : list exn * CookieConsent * browser :=
  match hs with
  | [] => ([], cc, b)
  | h :: rest =>
      let target_value :=
        match getElementById id b with Some el => value el | None => "" end in
      match run_handler h target_value cc b with
      | Normal cc' b' => run_listeners rest id cc' b'
      | Thrown e cc' b' =>
          let '(es, cc'', b'') := run_listeners rest id cc' b' in
          (e :: es, cc'', b'')
      end
  end.

(** An event of this type on the element with this id. *)
Definition dispatchEvent (type id : string) (p : page) : list exn * page :=
  match window_cookieConsent p, getElementById id (window_browser p) with
  | Some cc, Some el =>
      let hs := map snd (List.filter (λ l, String.eqb (fst l) type) (listeners el)) in
      let '(es, cc', b') := run_listeners hs id cc (window_browser p) in
      (es, Page (Some cc') b')
  | _, _ => ([], p)
  end.

End Controller.

(** ** Vocabulary of the statements *)

(** A cookie header as a list of [name=value] segments. *)
Module Header.

Record segment := Segment {
  leading : string;      (* the whitespace in front of the name *)
  name : string;
  value : string
}.

Definition text (s : segment) : string :=
  leading s +:+ name s +:+ "=" +:+ value s.

Definition header (segs : list segment) : string :=
  JsString.join ";" (map text segs).

Fixpoint all_chars (p : ascii → bool) (s : string) : bool :=
  match s with
  | EmptyString => true
  | String c r => p c && all_chars p r
  end.

Definition is_space (c : ascii) : bool := Ascii.eqb c JsString.space.

(** White space in the wide sense: space, tab, line feed, form feed and
    carriage return. *)
Definition is_whitespace (c : ascii) : bool :=
  let n := Ascii.nat_of_ascii c in
  ((n =? 32) || (n =? 9) || (n =? 10) || (n =? 12) || (n =? 13))%nat.

Definition first_char_is (p : ascii → bool) (s : string) : bool :=
  match s with
  | String c _ => p c
  | EmptyString => false
  end.

(** A segment whose leading text is made of the characters [ws] and whose
    name and value can be told apart: the name ends at the first [=], the
    segment at the next [;], and the name does not begin with [ws]. *)
Definition well_formed (ws : ascii → bool) (s : segment) : bool :=
  all_chars ws (leading s)
  && negb (first_char_is ws (name s))
  && negb (JsString.mem JsString.semicolon (name s))
  && negb (JsString.mem JsString.equals_sign (name s))
  && negb (JsString.mem JsString.semicolon (value s)).

(** The value of the first segment with this name. *)
Fixpoint first_match (n : string) (segs : list segment) : option string :=
  match segs with
  | [] => None
  | s :: rest => if String.eqb (name s) n then Some (value s) else first_match n rest
  end.

End Header.







(** The stored theme, if there is one to apply, can be a class name: it has
    no white space. *)
Definition stored_theme_applicable (b : browser) : bool :=
  match getCookie "site_theme" b with
  | Some theme => negb (ClassList.has_whitespace theme)
  | None => true
  end.

(** The console messages by which the three enable routines announce
    themselves, each as its first statement. *)
Definition functional_enabled : console_entry := ConsoleLog "Functional cookies enabled".
Definition analytics_enabled : console_entry := ConsoleLog "Analytics cookies enabled".
Definition marketing_enabled : console_entry := ConsoleLog "Marketing cookies enabled".



(** What the script reads of the browser and never changes. *)
Definition environment (b : browser) : Z * string * string * string * bool :=
  (clock b, location_protocol b, location_pathname b, document_title b,
   gtag_defined b).

(** The console entry of [trackPageView]. *)
Definition page_view (b : browser) : console_entry :=
  ConsoleLogPageView (location_pathname b) (document_title b)
                     (JsDate.toISOString (clock b)).

(** The method returns normally, leaves the controller object and the
    environment alone and adds the entries [new] to the console. *)
Definition logs (m : method) (this : CookieConsent) (b : browser)
    (new : list console_entry) : Prop :=
  ∃ b', m this b = Normal this b'
        ∧ console b' = console b ++ new
        ∧ environment b' = environment b.

(** What [applyCookieSettings] adds to the console for the three flags. *)
Definition settings_entries (this : CookieConsent) (b : browser) : list console_entry :=
  (if allowed FUNCTIONAL this then [functional_enabled] else [])
  ++ (if allowed ANALYTICS this then [analytics_enabled; page_view b] else [])
  ++ (if allowed MARKETING this then [marketing_enabled] else []).

(** The cookie string of a cookie that expires 365 days from now. *)
Definition year_cookie (b : browser) (name value : string) : string :=
  name +:+ "=" +:+ value +:+ "; expires=" +:+
  JsDate.toUTCString (clock b + 365 * JsDate.msPerDay) +:+ "; path=/" +:+
  (if String.eqb (location_protocol b) "https:" then "; Secure" else "") +:+
  "; SameSite=Strict".

(** A method that leaves [this.preferences] as it found it, however it
    ends. *)
Definition keeps_preferences (m : method) : Prop :=
  ∀ this b, preferences (outcome_this (m this b)) = preferences this.

(** ** A platform instance for the examples

    [JSON.parse] and [JSON.stringify] on the texts the examples use: JSON
    without escape sequences, fractions and exponents. *)

Module Sample.

Definition dq : string := String JsString.double_quote EmptyString.

Definition quoted (s : string) : string := dq +:+ s +:+ dq.

Definition is_ws (c : ascii) : bool :=
  let n := Ascii.nat_of_ascii c in ((n =? 32) || (n =? 9) || (n =? 10) || (n =? 13))%nat.

Fixpoint skip_ws (s : string) : string :=
  match s with
  | String c r => if is_ws c then skip_ws r else s
  | EmptyString => s
  end.

Definition literal (lit : string) (v : json) (s : string) : option (json * string) :=
  if JsString.starts_with lit s then Some (v, JsString.drop (String.length lit) s)
  else None.

(** The characters up to the closing quote. *)
Fixpoint string_body (s : string) : option (string * string) :=
  match s with
  | EmptyString => None
  | String c r =>
      if Ascii.eqb c JsString.double_quote then Some (EmptyString, r)
      else if Ascii.eqb c "\" || (Ascii.nat_of_ascii c <? 32)%nat then None
      else match string_body r with
           | Some (str, rest) => Some (String c str, rest)
           | None => None
           end
  end.

Definition integer (s : string) : option (json * string) :=
  let '(negative, s) :=
    match s with
    | String "-" r => (true, r)
    | _ => (false, s)
    end in
  let '(v, len, rest) := CookieStore.digits 0 0 s in
  let leading_zero := match s with String "0" _ => (1 <? len)%nat | _ => false end in
  let continues :=
    match rest with
    | String c _ => Ascii.eqb c "." || Ascii.eqb c "e" || Ascii.eqb c "E"
    | EmptyString => false
    end in
  if (len =? 0)%nat || leading_zero || continues then None
  else Some (JNumber (if negative then - v else v), rest).

Fixpoint parse_value (fuel : nat) (s : string) {struct fuel} : option (json * string) :=
  match fuel with
  | O => None
  | S fuel =>
      match skip_ws s with
      | String c r =>
          if Ascii.eqb c "n" then literal "null" JNull (String c r)
          else if Ascii.eqb c "t" then literal "true" (JBool true) (String c r)
          else if Ascii.eqb c "f" then literal "false" (JBool false) (String c r)
          else if Ascii.eqb c JsString.double_quote then
            match string_body r with
            | Some (str, rest) => Some (JString str, rest)
            | None => None
            end
          else if Ascii.eqb c "[" then
            match skip_ws r with
            | String "]" rest => Some (JArray [], rest)
            | _ => match parse_elements fuel r with
                   | Some (vs, rest) => Some (JArray vs, rest)
                   | None => None
                   end
            end
          else if Ascii.eqb c "{" then
            match skip_ws r with
            | String "}" rest => Some (JObject [], rest)
            | _ => match parse_members fuel r with
                   | Some (ms, rest) => Some (JObject ms, rest)
                   | None => None
                   end
            end
          else integer (String c r)
      | EmptyString => None
      end
  end
with parse_elements (fuel : nat) (s : string) {struct fuel} : option (list json * string) :=
  match fuel with
  | O => None
  | S fuel =>
      match parse_value fuel s with
      | Some (v, rest) =>
          match skip_ws rest with
          | String "," r =>
              match parse_elements fuel r with
              | Some (vs, rest') => Some (v :: vs, rest')
              | None => None
              end
          | String "]" r => Some ([v], r)
          | _ => None
          end
      | None => None
      end
  end
with parse_members (fuel : nat) (s : string) {struct fuel}
    : option (list (string * json) * string) :=
  match fuel with
  | O => None
  | S fuel =>
      match skip_ws s with
      | String c r =>
          if Ascii.eqb c JsString.double_quote then
            match string_body r with
            | Some (key, rest) =>
                match skip_ws rest with
                | String ":" r1 =>
                    match parse_value fuel r1 with
                    | Some (v, rest1) =>
                        match skip_ws rest1 with
                        | String "," r2 =>
                            match parse_members fuel r2 with
                            | Some (ms, rest2) => Some ((key, v) :: ms, rest2)
                            | None => None
                            end
                        | String "}" r2 => Some ([(key, v)], r2)
                        | _ => None
                        end
                    | None => None
                    end
                | _ => None
                end
            | None => None
            end
          else None
      | EmptyString => None
      end
  end.

Definition JSON_parse (text : string) : option json :=
  match parse_value (S (String.length text)) text with
  | Some (v, rest) =>
      match skip_ws rest with
      | EmptyString => Some v
      | _ => None
      end
  | None => None
  end.

Fixpoint print (v : json) : string :=
  match v with
  | JNull => "null"
  | JBool true => "true"
  | JBool false => "false"
  | JNumber n => (if n <? 0 then "-" else "") +:+ JsDate.decimal (Z.abs n)
  | JString s => quoted s
  | JArray items => "[" +:+ JsString.join "," (map print items) +:+ "]"
  | JObject ms =>
      "{" +:+ JsString.join ","
                (map (λ kv, quoted (fst kv) +:+ ":" +:+ print (snd kv)) ms) +:+ "}"
  end.

(** Prints the four categories, in the order the script writes them. *)
Definition JSON_stringify (prefs : gmap string json) : string :=
  print (JObject
           (omap (λ k, match prefs !! k with Some v => Some (k, v) | None => None end)
                 [NECESSARY; FUNCTIONAL; ANALYTICS; MARKETING])).

Definition element0 : element := Element "" false "" [].

(** A page served over https at the given time, with the given cookies
    and elements and nothing else. *)
Definition browser_with (jar : list CookieStore.cookie)
    (els : gmap string element) : browser :=
  Browser 1793658480000 "https:" "/" "Pane e Pasta" false
          jar [] els "" "" "" [] [].

(** Stored cookies of a visitor who has decided, with this text as the
    stored preferences. *)
Definition decided_jar (preferences_text : string) : list CookieStore.cookie :=
  [CookieStore.Cookie "cookie_consent" "given" (Some 1825194480000);
   CookieStore.Cookie "cookie_preferences" preferences_text (Some 1825194480000)].

(** The preferences of a visitor who allowed the functional category. *)
Definition functional_only : gmap string json :=
  <[FUNCTIONAL := JBool true]> default_preferences.

(** The text of a stored preference object that carries a false
    [necessary]. *)
Definition necessary_false_text : string :=
  "{" +:+ quoted "necessary" +:+ ":false}".

(** All the elements the script looks up. *)
Definition full_dom : gmap string element :=
  list_to_map
    (map (λ id, (id, element0))
         ["cookie-banner"; "accept-all-cookies"; "reject-all-cookies";
          "cookie-settings-btn"; "cookie-settings-modal"; "functional-cookies";
          "analytics-cookies"; "marketing-cookies"; "save-cookie-preferences";
          "close-cookie-modal"; "theme-selector"]).

(** The browser of a returning visitor who allowed the functional
    category and chose the dark theme. *)
Definition returning_visitor : browser :=
  browser_with
    (decided_jar (JSON_stringify functional_only)
     ++ [CookieStore.Cookie "site_theme" "dark" (Some 1825194480000)])
    full_dom.

End Sample.

(** ** Vocabulary of the further properties *)

(** The attributes of a cookie string with their values: the pieces after
    the first [;], each cut at its first [=], the name trimmed and in lower
    case as the store compares it. *)
Definition cookie_attributes (cookieString : string) : list (string * option string) :=
  map (λ av, let '(n, v) := JsString.cut JsString.equals_sign av in
             (CookieStore.lowercase (CookieStore.trim n), v))
      (tail (JsString.split JsString.semicolon cookieString)).

(** The property of a name that a spread takes: that of the last source
    property of that name. *)
Fixpoint last_property (k : string) (props : list (string * json)) : option json :=
  match props with
  | [] => None
  | (k', v) :: rest =>
      match last_property k rest with
      | Some v' => Some v'
      | None => if String.eqb k' k then Some v else None
      end
  end.

(** The listener that [setupEventListeners] registers on the element with
    this id, if any. *)
Definition bound_listener (id : string) : option (string * handler) :=
  if String.eqb id "accept-all-cookies" then Some ("click"%string, OnAcceptAll)
  else if String.eqb id "reject-all-cookies" then Some ("click"%string, OnRejectAll)
  else if String.eqb id "cookie-settings-btn" then Some ("click"%string, OnOpenSettings)
  else if String.eqb id "save-cookie-preferences" then Some ("click"%string, OnSaveCustom)
  else if String.eqb id "close-cookie-modal" then Some ("click"%string, OnCloseModal)
  else if String.eqb id "theme-selector" then Some ("change"%string, OnThemeChange)
  else None.

(** An element with one more listener. *)
Definition with_listener (l : option (string * handler)) (el : element) : element :=
  match l with
  | Some l => Element (style_display el) (checked el) (value el) (listeners el ++ [l])
  | None => el
  end.

(** A method that leaves the controller object as it found it and only adds
    to the cookies written, however it ends. *)
Definition side_effect_only (m : method) : Prop :=
  ∀ this b,
    outcome_this (m this b) = this
    ∧ ∃ more, cookie_writes (outcome_browser (m this b)) = cookie_writes b ++ more.

Definition hyphen : ascii := Ascii.ascii_of_nat 45.

(** A class name that is no theme class: not empty, without white space and
    without a hyphen. *)
Definition other_class (c : string) : bool :=
  negb (String.eqb c "") && negb (ClassList.has_whitespace c)
  && negb (JsString.mem hyphen c).

(** A theme name made of word characters. *)
Definition word_theme (t : string) : bool := Header.all_chars ClassList.is_word t.

(** The classes, each followed by a space. *)
Fixpoint spaced (classes : list string) : string :=
  match classes with
  | [] => ""
  | c :: rest => c +:+ String JsString.space (spaced rest)
  end.

(** A method that sends nothing to [gtag], however it ends. *)
Definition no_signal (m : method) : Prop :=
  ∀ this b, gtag_calls (outcome_browser (m this b)) = gtag_calls b.

(** The consent updates [applyCookieSettings] sends to [gtag]. *)
Definition consent_signals (this : CookieConsent) (b : browser) : list gtag_call :=
  (if allowed ANALYTICS this && gtag_defined b
   then [GtagConsentUpdate "analytics_storage" "granted"] else [])
  ++ (if allowed MARKETING this && gtag_defined b
      then [GtagConsentUpdate "ad_storage" "granted"] else []).

(** * Properties *)

#[local] Arguments Ascii.eqb : simpl never.
#[local] Arguments String.eqb : simpl never.

(** ** Strings *)

Section StringFacts.

Lemma append_cons (c : ascii) (s t : string) :
  String c s +:+ t = String c (s +:+ t).
Proof. reflexivity. Qed.

Lemma append_nil_l (s : string) : "" +:+ s = s.
Proof. reflexivity. Qed.

Lemma string_eqb_cons (a b : ascii) (s t : string) :
  String.eqb (String a s) (String b t) = Ascii.eqb a b && String.eqb s t.
Proof. reflexivity. Qed.

Lemma append_nil_r (s : string) : s +:+ "" = s.
Proof.
  induction s as [|c s IH]; [reflexivity |].
  rewrite append_cons. congruence.
Qed.

Lemma append_assoc (s t u : string) : (s +:+ t) +:+ u = s +:+ t +:+ u.
Proof.
  induction s as [|c s IH]; [reflexivity |].
  rewrite !append_cons. congruence.
Qed.

Lemma mem_app (c : ascii) (s t : string) :
  JsString.mem c (s +:+ t) = JsString.mem c s || JsString.mem c t.
Proof.
  induction s as [|d s IH]; [reflexivity |].
  rewrite append_cons. simpl. rewrite IH. now rewrite orb_assoc.
Qed.


Lemma split_without (sep : ascii) (s : string) :
  JsString.mem sep s = false → JsString.split sep s = [s].
Proof.
  induction s as [|c s IH]; simpl; [reflexivity |].
  intros H. apply orb_false_iff in H as [Hc Hs].
  rewrite Hc, (IH Hs). reflexivity.
Qed.

Lemma split_app (sep : ascii) (p r : string) :
  JsString.mem sep p = false →
  JsString.split sep (p +:+ String sep r) = p :: JsString.split sep r.
Proof.
  induction p as [|c p IH]; rewrite ?append_cons, ?append_nil_l; simpl.
  - intros _. now rewrite Ascii.eqb_refl.
  - intros H. apply orb_false_iff in H as [Hc Hp].
    rewrite Hc, (IH Hp). reflexivity.
Qed.

Lemma split_join (sep : ascii) (pieces : list string) :
  pieces ≠ [] →
  Forall (λ p, JsString.mem sep p = false) pieces →
  JsString.split sep (JsString.join (String sep "") pieces) = pieces.
Proof.
  induction pieces as [|p rest IH]; [contradiction |].
  intros _ Hall. inversion Hall as [|? ? Hp Hrest]; subst.
  destruct rest as [|q rest].
  - simpl. now apply split_without.
  - change (JsString.join (String sep "") (p :: q :: rest))
      with (p +:+ String sep (JsString.join (String sep "") (q :: rest))).
    rewrite split_app by assumption.
    rewrite IH; [reflexivity | discriminate | assumption].
Qed.

Lemma cut_app (c : ascii) (p r : string) :
  JsString.mem c p = false →
  JsString.cut c (p +:+ String c r) = (p, Some r).
Proof.
  induction p as [|d p IH]; rewrite ?append_cons, ?append_nil_l; simpl.
  - intros _. now rewrite Ascii.eqb_refl.
  - intros H. apply orb_false_iff in H as [Hd Hp].
    rewrite Hd, (IH Hp). reflexivity.
Qed.

Lemma drop_app (p r : string) : JsString.drop (String.length p) (p +:+ r) = r.
Proof.
  induction p as [|c p IH]; rewrite ?append_cons, ?append_nil_l; simpl;
    [now destruct r | exact IH].
Qed.

Lemma starts_with_app (p r : string) : JsString.starts_with p (p +:+ r) = true.
Proof.
  induction p as [|c p IH]; rewrite ?append_cons, ?append_nil_l; simpl;
    [reflexivity |].
  now rewrite Ascii.eqb_refl.
Qed.

(** A name followed by [=] starts [name=value] only for the same name,
    when neither name contains [=]. *)
Lemma starts_with_name (n m v : string) :
  JsString.mem JsString.equals_sign n = false →
  JsString.mem JsString.equals_sign m = false →
  JsString.starts_with (n +:+ "=") (m +:+ "=" +:+ v) = String.eqb m n.
Proof.
  revert m. induction n as [|c n IH]; intros [|d m];
    rewrite ?append_cons, ?append_nil_l; simpl; intros Hn Hm.
  - reflexivity.
  - apply orb_false_iff in Hm as [Hd _].
    rewrite Ascii.eqb_sym. change "="%char with JsString.equals_sign.
    now rewrite Hd.
  - apply orb_false_iff in Hn as [Hc _].
    change "="%char with JsString.equals_sign. now rewrite Hc.
  - apply orb_false_iff in Hn as [_ Hn]. apply orb_false_iff in Hm as [_ Hm].
    rewrite string_eqb_cons, (Ascii.eqb_sym c d).
    destruct (Ascii.eqb d c); simpl; [now apply IH | reflexivity].
Qed.

(** What starts a text occurs in it. *)
Lemma starts_with_mem (c : ascii) (p s : string) :
  JsString.starts_with p s = true → JsString.mem c p = true → JsString.mem c s = true.
Proof.
  revert s. induction p as [|d p IH]; intros s; simpl; [discriminate 2 |].
  destruct s as [|e s]; [discriminate |].
  intros Hp H. apply andb_true_iff in Hp as [Hde Hp].
  apply Ascii.eqb_eq in Hde as <-.
  simpl. apply orb_true_iff in H as [H|H].
  - now rewrite H.
  - rewrite (IH _ Hp H). apply orb_true_r.
Qed.

Lemma strip_leading_spaces_app (ws t : string) :
  Header.all_chars Header.is_space ws = true →
  Header.first_char_is Header.is_space t = false →
  strip_leading_spaces (ws +:+ t) = t.
Proof.
  intros Hws Ht. induction ws as [|c ws IH];
    rewrite ?append_cons, ?append_nil_l; simpl.
  - destruct t as [|d t]; [reflexivity |]. simpl in *.
    unfold Header.is_space in Ht. now rewrite Ht.
  - simpl in Hws. apply andb_true_iff in Hws as [Hc Hws].
    unfold Header.is_space in Hc. rewrite Hc. now apply IH.
Qed.

End StringFacts.

(** ** [getCookie] *)

Section GetCookieFacts.

Lemma spaces_without (c : ascii) (ws : string) :
  Header.is_space c = false →
  Header.all_chars Header.is_space ws = true → JsString.mem c ws = false.
Proof.
  intros Hc. induction ws as [|d ws IH]; simpl; [reflexivity |].
  intros H. apply andb_true_iff in H as [Hd Hws].
  rewrite (IH Hws), orb_false_r.
  unfold Header.is_space in *. apply Ascii.eqb_eq in Hd as ->.
  now rewrite Ascii.eqb_sym.
Qed.

Lemma well_formed_parts (ws : ascii → bool) (s : Header.segment) :
  Header.well_formed ws s = true →
  Header.all_chars ws (Header.leading s) = true
  ∧ Header.first_char_is ws (Header.name s) = false
  ∧ JsString.mem JsString.semicolon (Header.name s) = false
  ∧ JsString.mem JsString.equals_sign (Header.name s) = false
  ∧ JsString.mem JsString.semicolon (Header.value s) = false.
Proof.
  unfold Header.well_formed. rewrite !andb_true_iff, !negb_true_iff. tauto.
Qed.

Lemma text_without_semicolon (s : Header.segment) :
  Header.well_formed Header.is_space s = true →
  JsString.mem JsString.semicolon (Header.text s) = false.
Proof.
  intros H. apply well_formed_parts in H as (Hl & _ & Hn & _ & Hv).
  unfold Header.text. rewrite !mem_app, Hn, Hv.
  rewrite (spaces_without JsString.semicolon _ eq_refl Hl). reflexivity.
Qed.

Lemma strip_text (s : Header.segment) :
  Header.well_formed Header.is_space s = true →
  strip_leading_spaces (Header.text s) = Header.name s +:+ "=" +:+ Header.value s.
Proof.
  intros H. apply well_formed_parts in H as (Hl & Hf & _).
  unfold Header.text. apply strip_leading_spaces_app; [assumption |].
  destruct (Header.name s); [reflexivity | exact Hf].
Qed.

Lemma name_eq_not_empty (n : string) : JsString.starts_with (n +:+ "=") "" = false.
Proof. now destruct n. Qed.

Lemma length_name_eq (n v : string) :
  JsString.drop (String.length (n +:+ "=")) (n +:+ "=" +:+ v) = v.
Proof. rewrite <- append_assoc. apply drop_app. Qed.

(** The loop of [getCookie] finds the first segment of that name. *)
Lemma getCookie_scan_first_match (n : string) (segs : list Header.segment) :
  JsString.mem JsString.equals_sign n = false →
  Forall (λ s, Header.well_formed Header.is_space s = true) segs →
  getCookie_scan (n +:+ "=") (map Header.text segs) = Header.first_match n segs.
Proof.
  intros Hn. induction 1 as [|s segs Hs _ IH]; simpl; [reflexivity |].
  rewrite (strip_text _ Hs).
  pose proof (well_formed_parts _ _ Hs) as (_ & _ & _ & Hm & _).
  rewrite (starts_with_name _ _ _ Hn Hm).
  destruct (String.eqb (Header.name s) n) eqn:E; [| exact IH].
  apply String.eqb_eq in E. rewrite E. now rewrite length_name_eq.
Qed.

Lemma getCookie_in_header (n : string) (segs : list Header.segment) :
  JsString.mem JsString.equals_sign n = false →
  Forall (λ s, Header.well_formed Header.is_space s = true) segs →
  getCookie_in (Header.header segs) n = Header.first_match n segs.
Proof.
  intros Hn Hsegs. unfold getCookie_in, Header.header.
  destruct segs as [|s segs].
  - simpl. now rewrite name_eq_not_empty.
  - change ";"%string with (String JsString.semicolon "").
    rewrite split_join.
    + now apply getCookie_scan_first_match.
    + discriminate.
    + apply List.Forall_map. eapply List.Forall_impl; [| exact Hsegs].
      intros x. apply text_without_semicolon.
Qed.

End GetCookieFacts.

(** C5 (as amended). For a cookie header that is a list of [name=value]
    segments separated by semicolons, each behind any number of space
    characters (U+0020), and for a name without [=], [getCookie(name)] returns
    the value of the first segment with exactly that name, as it stands in the
    header, and [null] when no segment has that name. *)
Theorem getCookie_returns_first_match (segs : list Header.segment) (n : string) :
  Forall (λ s, Header.well_formed Header.is_space s = true) segs →
  JsString.mem JsString.equals_sign n = false →
  getCookie_in (Header.header segs) n = Header.first_match n segs.
Proof. intros Hsegs Hn. now apply getCookie_in_header. Qed.

Lemma getCookie_returns_first_match_witness :
  getCookie_in "theme=dark;  lang=it; theme=light" "lang" = Some "it"%string
  ∧ getCookie_in "theme=dark;  lang=it; theme=light" "theme" = Some "dark"%string
  ∧ getCookie_in "theme=dark;  lang=it; theme=light" "the" = None.
Proof.
  pose (segs := [Header.Segment "" "theme" "dark"; Header.Segment "  " "lang" "it";
                 Header.Segment " " "theme" "light"]).
  assert (Hsegs : Forall (λ s, Header.well_formed Header.is_space s = true) segs)
    by (repeat constructor).
  split; [| split].
  - exact (getCookie_returns_first_match segs "lang" Hsegs eq_refl).
  - exact (getCookie_returns_first_match segs "theme" Hsegs eq_refl).
  - exact (getCookie_returns_first_match segs "the" Hsegs eq_refl).
Defined.

(** C5 as stated fails: a tab in front of a segment is white space that
    [getCookie] does not skip, and a name with [=] in it finds the value of a
    segment with another name. *)
Lemma getCookie_whitespace_counterexample :
  ¬ (∀ segs n,
       Forall (λ s, Header.well_formed Header.is_whitespace s = true) segs →
       getCookie_in (Header.header segs) n = Header.first_match n segs)
  ∧ ¬ (∀ segs n,
         Forall (λ s, Header.well_formed Header.is_space s = true) segs →
         getCookie_in (Header.header segs) n = Header.first_match n segs).
Proof.
  split; intros H.
  - specialize (H [Header.Segment "" "a" "1";
                   Header.Segment (String JsString.tab "") "b" "2"] "b"%string).
    assert (Hg : getCookie_in
                   (Header.header [Header.Segment "" "a" "1";
                                   Header.Segment (String JsString.tab "") "b" "2"])
                   "b" = None) by reflexivity.
    rewrite Hg in H. discriminate H. repeat constructor.
  - specialize (H [Header.Segment "" "a" "b=c"] "a=b"%string).
    assert (Hg : getCookie_in (Header.header [Header.Segment "" "a" "b=c"]) "a=b"
                 = Some "c"%string) by reflexivity.
    rewrite Hg in H. discriminate H. repeat constructor.
Qed.

(** ** The cookie store *)

Section CookieStoreFacts.

Import CookieStore.















End CookieStoreFacts.

Section SetCookieFacts.

Import CookieStore.

Lemma or_empty_id (value : string) : or_empty value = value.
Proof. now destruct value. Qed.

(** The cookie string begins with [name=value]; the rest are attributes. *)
Lemma setCookie_string_shape (now : Z) (protocol name value : string)
    (days : option Z) (secure : bool) (sameSite : string) :
  setCookie_string now protocol name value days secure sameSite
  = (name +:+ "=" +:+ value) +:+ setCookie_expires now days +:+
    String JsString.semicolon
      (" path=/" +:+
       (if secure && String.eqb protocol "https:" then "; Secure" else "") +:+
       "; SameSite=" +:+ sameSite).
Proof.
  unfold setCookie_string. rewrite or_empty_id.
  destruct (secure && String.eqb protocol "https:");
    rewrite !append_assoc; reflexivity.
Qed.



End SetCookieFacts.




Section StoreInvariant.

Import CookieStore.











End StoreInvariant.

Section ExpiresFacts.


Lemma name_value_without_semicolon (name value : string) :
  JsString.mem JsString.semicolon name = false →
  JsString.mem JsString.semicolon value = false →
  JsString.mem JsString.semicolon (name +:+ "=" +:+ value) = false.
Proof. intros Hn Hv. now rewrite !mem_app, Hn, Hv. Qed.



End ExpiresFacts.




(** ** The controller *)

Section ControllerFacts.

Variable JSON_parse : string → option json.
Variable JSON_stringify : gmap string json → string.

Local Open Scope method_scope.

Lemma default_preferences_lookup :
  default_preferences !! NECESSARY = Some (JBool true)
  ∧ default_preferences !! FUNCTIONAL = Some (JBool false)
  ∧ default_preferences !! ANALYTICS = Some (JBool false)
  ∧ default_preferences !! MARKETING = Some (JBool false).
Proof. repeat split; reflexivity. Qed.

Lemma all_preferences_lookup :
  all_preferences !! NECESSARY = Some (JBool true)
  ∧ all_preferences !! FUNCTIONAL = Some (JBool true)
  ∧ all_preferences !! ANALYTICS = Some (JBool true)
  ∧ all_preferences !! MARKETING = Some (JBool true).
Proof. repeat split; reflexivity. Qed.

Lemma keeps_preferences_seq (m1 m2 : method) :
  keeps_preferences m1 → keeps_preferences m2 → keeps_preferences (m1 ;; m2).
Proof.
  intros H1 H2 this b. unfold and_then. specialize (H1 this b).
  destruct (m1 this b) as [this' b'|e this' b']; simpl in *; [| exact H1].
  now rewrite H2.
Qed.

Lemma keeps_preferences_when (cond : CookieConsent → browser → bool) (m : method) :
  keeps_preferences m → keeps_preferences (when cond m).
Proof. intros H this b. unfold when. destruct (cond this b); [apply H | reflexivity]. Qed.

Lemma keeps_preferences_effect (f : browser → browser) :
  keeps_preferences (effect f).
Proof. intros this b. reflexivity. Qed.

Lemma keeps_preferences_applyTheme (theme : string) :
  keeps_preferences (applyTheme theme).
Proof.
  intros this b. unfold applyTheme.
  destruct (ClassList.add _ _); [reflexivity |].
  now destruct (getElementById _ _).
Qed.

Lemma keeps_preferences_setLanguage (lang : string) :
  keeps_preferences (setLanguage lang).
Proof.
  apply keeps_preferences_when, keeps_preferences_seq; apply keeps_preferences_effect.
Qed.

Lemma keeps_preferences_setFontSize (size : string) :
  keeps_preferences (setFontSize size).
Proof.
  apply keeps_preferences_when, keeps_preferences_seq; apply keeps_preferences_effect.
Qed.

Lemma keeps_preferences_loadUserPreferences :
  keeps_preferences loadUserPreferences.
Proof.
  apply keeps_preferences_seq; intros this b; cbv beta zeta.
  - destruct (getCookie "preferred_language" b) as [v|]; [| reflexivity].
    destruct (truthy_string (Some v));
      [apply keeps_preferences_setLanguage | reflexivity].
  - destruct (getCookie "font_size" b) as [v|]; [| reflexivity].
    destruct (truthy_string (Some v));
      [apply keeps_preferences_setFontSize | reflexivity].
Qed.

Lemma keeps_preferences_enableFunctionalCookies :
  keeps_preferences enableFunctionalCookies.
Proof.
  apply keeps_preferences_seq; [apply keeps_preferences_effect |].
  apply keeps_preferences_seq; [| apply keeps_preferences_loadUserPreferences].
  intros this b. cbv beta zeta.
  destruct (getCookie "site_theme" b) as [v|]; [| reflexivity].
  destruct (truthy_string (Some v)); [apply keeps_preferences_applyTheme | reflexivity].
Qed.

Lemma keeps_preferences_trackPageView : keeps_preferences trackPageView.
Proof. apply keeps_preferences_when. intros this b. reflexivity. Qed.

Lemma keeps_preferences_enableAnalytics : keeps_preferences enableAnalytics.
Proof.
  repeat first [ apply keeps_preferences_seq | apply keeps_preferences_when
               | apply keeps_preferences_effect | apply keeps_preferences_trackPageView ].
Qed.

Lemma keeps_preferences_enableMarketing : keeps_preferences enableMarketing.
Proof.
  repeat first [ apply keeps_preferences_seq | apply keeps_preferences_when
               | apply keeps_preferences_effect ].
Qed.

Lemma keeps_preferences_applyCookieSettings : keeps_preferences applyCookieSettings.
Proof.
  apply keeps_preferences_seq;
    [apply keeps_preferences_when, keeps_preferences_enableFunctionalCookies |].
  apply keeps_preferences_seq; apply keeps_preferences_when.
  - apply keeps_preferences_enableAnalytics.
  - apply keeps_preferences_enableMarketing.
Qed.

Lemma keeps_preferences_saveConsent : keeps_preferences (saveConsent JSON_stringify).
Proof.
  apply keeps_preferences_seq; [apply keeps_preferences_effect |].
  apply keeps_preferences_seq; intros this b; reflexivity.
Qed.

Lemma keeps_preferences_hideConsentBanner : keeps_preferences hideConsentBanner.
Proof. intros this b. unfold hideConsentBanner. now destruct (getElementById _ _). Qed.

Lemma keeps_preferences_closeSettingsModal : keeps_preferences closeSettingsModal.
Proof. intros this b. unfold closeSettingsModal. now destruct (getElementById _ _). Qed.

(** What follows the assignment of the preferences in the three consent
    actions. *)
Lemma keeps_preferences_persist_and_apply :
  keeps_preferences (saveConsent JSON_stringify ;; applyCookieSettings ;; hideConsentBanner).
Proof.
  apply keeps_preferences_seq; [apply keeps_preferences_saveConsent |].
  apply keeps_preferences_seq.
  - apply keeps_preferences_applyCookieSettings.
  - apply keeps_preferences_hideConsentBanner.
Qed.

Lemma acceptAll_preferences (this : CookieConsent) (b : browser) :
  preferences (outcome_this (acceptAll JSON_stringify this b)) = all_preferences.
Proof.
  unfold acceptAll, and_then at 1, assign_this.
  now rewrite keeps_preferences_persist_and_apply.
Qed.

Lemma rejectAll_preferences (this : CookieConsent) (b : browser) :
  preferences (outcome_this (rejectAll JSON_stringify this b)) = default_preferences.
Proof.
  unfold rejectAll, and_then at 1, assign_this.
  now rewrite keeps_preferences_persist_and_apply.
Qed.

End ControllerFacts.

Section EnableRoutines.

Local Open Scope method_scope.

Lemma logs_seq (m1 m2 : method) (this : CookieConsent) (b : browser)
    (n1 n2 : list console_entry) :
  logs m1 this b n1 →
  (∀ b', environment b' = environment b → logs m2 this b' n2) →
  logs (m1 ;; m2) this b (n1 ++ n2).
Proof.
  intros (b1 & E1 & C1 & V1) H2. destruct (H2 b1 V1) as (b2 & E2 & C2 & V2).
  exists b2. unfold and_then. rewrite E1. split; [exact E2 |]. split.
  - now rewrite C2, C1, app_assoc.
  - congruence.
Qed.

Lemma logs_nothing (this : CookieConsent) (b : browser) :
  logs (λ this b, Normal this b) this b [].
Proof. exists b. split; [reflexivity |]. now rewrite app_nil_r. Qed.

Lemma logs_skip_when (cond : CookieConsent → browser → bool) (m : method)
    (this : CookieConsent) (b : browser) :
  cond this b = false → logs (when cond m) this b [].
Proof.
  intros H. exists b. unfold when. rewrite H. now rewrite app_nil_r.
Qed.

Lemma logs_when (cond : CookieConsent → browser → bool) (m : method)
    (this : CookieConsent) (b : browser) (new : list console_entry) :
  cond this b = true → logs m this b new → logs (when cond m) this b new.
Proof. intros H Hm. unfold logs, when. now rewrite H. Qed.

(** A change of the browser that leaves the console and the environment
    alone. *)
Lemma logs_effect (f : browser → browser) (this : CookieConsent) (b : browser) :
  console (f b) = console b → environment (f b) = environment b →
  logs (effect f) this b [].
Proof.
  intros Hc He. exists (f b). split; [reflexivity |]. now rewrite Hc, app_nil_r.
Qed.

Lemma logs_effect_console_add (e : console_entry) (this : CookieConsent) (b : browser) :
  logs (effect (console_add e)) this b [e].
Proof. eexists. repeat split; reflexivity. Qed.

Lemma logs_gtag (c : gtag_call) (this : CookieConsent) (b : browser) :
  logs (when (λ _ b, gtag_defined b) (effect (gtag c))) this b [].
Proof.
  destruct (gtag_defined b) eqn:E.
  - apply logs_when; [exact E |]. now apply logs_effect.
  - now apply logs_skip_when.
Qed.

Lemma has_whitespace_app (s t : string) :
  ClassList.has_whitespace (s +:+ t)
  = ClassList.has_whitespace s || ClassList.has_whitespace t.
Proof.
  induction s as [|c s IH]; [reflexivity |].
  rewrite append_cons. simpl. now rewrite IH, orb_assoc.
Qed.

Lemma has_token_In (t : string) (ts : list string) :
  ClassList.has_token t ts = true → In t ts.
Proof.
  unfold ClassList.has_token. rewrite existsb_exists.
  intros (x & Hx & E). apply String.eqb_eq in E. now subst.
Qed.

(** Adding a theme class succeeds when the theme has no white space, and
    the class attribute then lists the class. *)
Lemma classList_add_theme (theme className : string) :
  ClassList.has_whitespace theme = false →
  ∃ ts, ClassList.add (theme +:+ "-theme") className = inr (JsString.join " " ts)
        ∧ In (theme +:+ "-theme") ts.
Proof.
  intros Hw. unfold ClassList.add.
  rewrite has_whitespace_app, Hw.
  assert (Hne : ∃ c r, theme +:+ "-theme" = String c r)
    by (destruct theme; rewrite ?append_cons, ?append_nil_l; eauto).
  destruct Hne as (c & r & E). rewrite E.
  change (ClassList.has_whitespace "-theme") with false. cbv iota. cbn [orb].
  destruct (ClassList.has_token (String c r) (ClassList.token_set className)) eqn:Ht.
  - eexists. split; [reflexivity |]. now apply has_token_In.
  - eexists. split; [reflexivity |]. apply in_or_app. right. now left.
Qed.

(** [applyTheme] with a theme that can be a class name: it returns, the
    class attribute of the body lists the theme class and the selector, if
    there is one, shows the theme; the rest of the browser is as before. *)
Lemma applyTheme_applicable (theme : string) (this : CookieConsent) (b : browser) :
  ClassList.has_whitespace theme = false →
  ∃ b', applyTheme theme this b = Normal this b'
        ∧ console b' = console b
        ∧ environment b' = environment b
        ∧ cookie_writes b' = cookie_writes b
        ∧ (∃ ts, body_className b' = JsString.join " " ts ∧ In (theme +:+ "-theme") ts)
        ∧ (value <$> getElementById "theme-selector" b'
           = (λ _, theme) <$> getElementById "theme-selector" b).
Proof.
  intros Hw. unfold applyTheme. cbv zeta.
  destruct (classList_add_theme theme
              (body_className
                 (set_body_className
                    (ClassList.remove_themes 0 (body_className b)) b)) Hw)
    as (ts & Hadd & Hin).
  rewrite Hadd. unfold getElementById. cbn [document_elements set_body_className].
  destruct (document_elements b !! "theme-selector") as [el|] eqn:E.
  - eexists. split; [reflexivity |]. repeat split; eauto.
    unfold set_value, set_elements. cbn [document_elements set_body_className].
    now rewrite lookup_alter_eq, E.
  - eexists. split; [reflexivity |]. repeat split; eauto.
    cbn [document_elements set_body_className]. now rewrite E.
Qed.

Lemma logs_applyTheme (theme : string) (this : CookieConsent) (b : browser) :
  ClassList.has_whitespace theme = false → logs (applyTheme theme) this b [].
Proof.
  intros Hw. destruct (applyTheme_applicable theme this b Hw) as (b' & E & C & V & _).
  exists b'. split; [exact E |]. now rewrite app_nil_r.
Qed.

Lemma logs_setLanguage (lang : string) (this : CookieConsent) (b : browser) :
  logs (setLanguage lang) this b [].
Proof.
  unfold setLanguage. destruct (allowed FUNCTIONAL this) eqn:E.
  - apply logs_when; [exact E |]. change (@nil console_entry) with (@nil console_entry ++ []).
    apply logs_seq; [| intros b' _]; now apply logs_effect.
  - now apply logs_skip_when.
Qed.

Lemma logs_setFontSize (size : string) (this : CookieConsent) (b : browser) :
  logs (setFontSize size) this b [].
Proof.
  unfold setFontSize. destruct (allowed FUNCTIONAL this) eqn:E.
  - apply logs_when; [exact E |]. change (@nil console_entry) with (@nil console_entry ++ []).
    apply logs_seq; [| intros b' _]; now apply logs_effect.
  - now apply logs_skip_when.
Qed.

Lemma logs_loadUserPreferences (this : CookieConsent) (b : browser) :
  logs loadUserPreferences this b [].
Proof.
  unfold loadUserPreferences. change (@nil console_entry) with (@nil console_entry ++ []).
  apply logs_seq; [| intros b' _]; unfold logs; cbv beta zeta.
  - destruct (getCookie "preferred_language" b) as [v|];
      [| apply (logs_nothing this b)].
    destruct (truthy_string (Some v));
      [apply (logs_setLanguage v this b) | apply (logs_nothing this b)].
  - destruct (getCookie "font_size" b') as [v|]; [| apply (logs_nothing this b')].
    destruct (truthy_string (Some v));
      [apply (logs_setFontSize v this b') | apply (logs_nothing this b')].
Qed.

Lemma logs_after_console_add (e : console_entry) (m : method)
    (this : CookieConsent) (b : browser) (new : list console_entry) :
  logs m this (console_add e b) new →
  logs (effect (console_add e) ;; m) this b (e :: new).
Proof.
  intros (b' & E & C & V). exists b'. split; [exact E |]. split; [| exact V].
  rewrite C. cbn [console console_add]. now rewrite <- app_assoc.
Qed.

(** [enableFunctionalCookies] reads the stored theme from the cookies it is
    called with: logging first does not change them. *)
Lemma logs_enableFunctionalCookies (this : CookieConsent) (b : browser) :
  stored_theme_applicable b = true →
  logs enableFunctionalCookies this b [functional_enabled].
Proof.
  intros Happ. unfold enableFunctionalCookies.
  apply logs_after_console_add.
  change (@nil console_entry) with (@nil console_entry ++ []).
  apply logs_seq; [| intros b' _; apply logs_loadUserPreferences].
  unfold logs. cbv beta zeta.
  change (getCookie "site_theme" (console_add functional_enabled b))
    with (getCookie "site_theme" b).
  unfold stored_theme_applicable in Happ.
  destruct (getCookie "site_theme" b) as [theme|]; [| apply (logs_nothing this _)].
  destruct (truthy_string (Some theme)); [| apply (logs_nothing this _)].
  apply (logs_applyTheme theme this _). now apply negb_true_iff in Happ.
Qed.

Lemma page_view_environment (b b' : browser) :
  environment b' = environment b → page_view b' = page_view b.
Proof.
  unfold environment, page_view. intros H.
  injection H as H1 H2 H3 H4 H5. congruence.
Qed.

Lemma logs_enableAnalytics (this : CookieConsent) (b : browser) :
  allowed ANALYTICS this = true →
  logs enableAnalytics this b [analytics_enabled; page_view b].
Proof.
  intros Ha. unfold enableAnalytics.
  change [analytics_enabled; page_view b]
    with ([analytics_enabled] ++ [] ++ [page_view b]).
  apply logs_seq; [apply logs_effect_console_add |]. intros b1 V1.
  apply logs_seq; [apply logs_gtag |]. intros b2 V2.
  unfold trackPageView. apply logs_when; [exact Ha |].
  eexists. split; [reflexivity |]. split; [| reflexivity].
  cbn [console console_add]. f_equal. f_equal.
  fold (page_view b2). apply page_view_environment. congruence.
Qed.

Lemma logs_enableMarketing (this : CookieConsent) (b : browser) :
  logs enableMarketing this b [marketing_enabled].
Proof.
  unfold enableMarketing. change [marketing_enabled] with ([marketing_enabled] ++ []).
  apply logs_seq; [apply logs_effect_console_add |]. intros b1 _. apply logs_gtag.
Qed.

Lemma logs_applyCookieSettings (this : CookieConsent) (b : browser) :
  (allowed FUNCTIONAL this = true → stored_theme_applicable b = true) →
  logs applyCookieSettings this b (settings_entries this b).
Proof.
  intros Happ. unfold applyCookieSettings, settings_entries.
  apply logs_seq; [| intros b1 V1; apply logs_seq; [| intros b2 V2]].
  - destruct (allowed FUNCTIONAL this) eqn:E.
    + apply logs_when; [exact E |]. apply logs_enableFunctionalCookies. now apply Happ.
    + now apply logs_skip_when.
  - destruct (allowed ANALYTICS this) eqn:E.
    + apply logs_when; [exact E |].
      rewrite <- (page_view_environment b b1 V1). now apply logs_enableAnalytics.
    + now apply logs_skip_when.
  - destruct (allowed MARKETING this) eqn:E.
    + apply logs_when; [exact E |]. apply logs_enableMarketing.
    + now apply logs_skip_when.
Qed.


End EnableRoutines.

Section Claims.

Variable JSON_parse : string → option json.
Variable JSON_stringify : gmap string json → string.

Local Open Scope method_scope.

Lemma year_cookie_string (b : browser) (name value : string) :
  setCookie_string (clock b) (location_protocol b) name value (Some 365)
                   default_secure default_sameSite
  = year_cookie b name value.
Proof.
  unfold setCookie_string, year_cookie, setCookie_expires, default_secure.
  rewrite or_empty_id. cbn [days_truthy negb andb Z.eqb].
  destruct (String.eqb (location_protocol b) "https:");
    rewrite ?append_assoc; reflexivity.
Qed.



(** C3 (as amended). Of the two global entry points, [window.trackEvent]
    is gated by the [analytics] flag and [window.saveUserPreference] by the
    [functional] flag: with its flag true the first logs the event and
    forwards it to [gtag] when that is defined, and the second writes the
    cookie; with its flag false each returns without any change. *)
Theorem entry_points_gated (cc : CookieConsent) (b : browser)
    (eventName : string) (eventData : option json)
    (key value : string) (days : option Z) :
  (if allowed ANALYTICS cc then
     ∃ b', window_trackEvent eventName eventData (Page (Some cc) b)
           = (None, Page (Some cc) b')
           ∧ console b'
             = console b ++ [ConsoleLogEvent eventName (default (JObject []) eventData)]
           ∧ gtag_calls b'
             = gtag_calls b
               ++ (if gtag_defined b
                   then [GtagEvent eventName (default (JObject []) eventData)]
                   else [])
           ∧ cookie_writes b' = cookie_writes b
   else window_trackEvent eventName eventData (Page (Some cc) b)
        = (None, Page (Some cc) b))
  ∧ (if allowed FUNCTIONAL cc then
       ∃ b', window_saveUserPreference key value days (Page (Some cc) b)
             = (None, Page (Some cc) b')
             ∧ cookie_writes b'
               = cookie_writes b
                 ++ [setCookie_string (clock b) (location_protocol b) key value
                       (Some (default 365 days)) default_secure default_sameSite]
             ∧ console b' = console b
     else window_saveUserPreference key value days (Page (Some cc) b)
          = (None, Page (Some cc) b)).
Proof.
  split.
  - unfold window_trackEvent, on_controller, trackEvent, when, and_then, effect.
    cbn [window_cookieConsent window_browser].
    destruct (allowed ANALYTICS cc); [| reflexivity].
    cbn [gtag_defined console_add].
    destruct (gtag_defined b) eqn:E; eexists; (split; [reflexivity |]); cbn;
      rewrite ?app_nil_r; auto.
  - unfold window_saveUserPreference. cbn [window_cookieConsent window_browser].
    destruct (allowed FUNCTIONAL cc); [| reflexivity].
    eexists. split; [reflexivity |]. split; reflexivity.
Qed.

(** C10. Before the controller exists, [window.trackEvent] and
    [window.saveUserPreference] return without any change and without an
    exception: no cookie is written and no event is forwarded. *)
Theorem entry_points_before_construction (p : page)
    (eventName : string) (eventData : option json)
    (key value : string) (days : option Z) :
  window_cookieConsent p = None →
  window_trackEvent eventName eventData p = (None, p)
  ∧ window_saveUserPreference key value days p = (None, p).
Proof.
  intros H. unfold window_trackEvent, window_saveUserPreference.
  now rewrite H.
Qed.

Lemma setupEventListeners_frame (this : CookieConsent) (b : browser) :
  ∃ b', setupEventListeners this b = Normal this b'
        ∧ console b' = console b
        ∧ cookie_writes b' = cookie_writes b
        ∧ cookie_jar b' = cookie_jar b.
Proof. eexists. split; [reflexivity |]. repeat split. Qed.

(** C7. When the stored [cookie_preferences] text does not parse,
    [loadPreferences] catches the failure, logs the warning and leaves the
    preferences as they are; it is called once, by the constructor, on the
    default preferences, so the controller starts with the default set, and
    the constructor returns normally. *)
Theorem malformed_preferences_fall_back (b : browser) (text : string) :
  truthy_string (getCookie "cookie_consent" b) = true →
  getCookie "cookie_preferences" b = Some text →
  text ≠ ""%string →
  JSON_parse text = None →
  (∀ this, loadPreferences JSON_parse this b
           = Normal this
               (console_add (ConsoleWarn "Failed to parse cookie preferences") b))
  ∧ ∃ b', constructor JSON_parse b = Normal (Controller true default_preferences) b'
          ∧ console b'
            = console b ++ [ConsoleWarn "Failed to parse cookie preferences"]
          ∧ cookie_writes b' = cookie_writes b.
Proof.
  intros Hconsent Hprefs Hne Hparse.
  assert (Hload : ∀ this, loadPreferences JSON_parse this b
            = Normal this
                (console_add (ConsoleWarn "Failed to parse cookie preferences") b)).
  { intros this. unfold loadPreferences. cbv zeta. rewrite Hprefs.
    assert (Ht : truthy_string (Some text) = true).
    { unfold truthy_string. apply negb_true_iff, String.eqb_neq. exact Hne. }
    now rewrite Ht, Hparse. }
  split; [exact Hload |].
  unfold constructor, init. unfold and_then at 1. cbv zeta. rewrite Hconsent.
  unfold and_then at 1. unfold assign_this at 1.
  unfold and_then at 1. rewrite Hload.
  assert (Hnone : ∀ b1, applyCookieSettings (set_consentGiven true
                          (Controller false default_preferences)) b1
                        = Normal (Controller true default_preferences) b1)
    by reflexivity.
  rewrite Hnone.
  destruct (setupEventListeners_frame (Controller true default_preferences)
              (console_add (ConsoleWarn "Failed to parse cookie preferences") b))
    as (b' & E & C & W & _).
  exists b'. split; [exact E |]. split; [now rewrite C | exact W].
Qed.

End Claims.

Section NecessaryFacts.

Variable JSON_parse : string → option json.
Variable JSON_stringify : gmap string json → string.

Local Open Scope method_scope.

(** The spread leaves a key alone that the source does not have. *)
Lemma spread_lookup_other (k : string) (props : list (string * json))
    (target : gmap string json) :
  Forall (λ kv, kv.1 ≠ k) props → spread target props !! k = target !! k.
Proof.
  unfold spread. intros H. revert target.
  induction H as [|[k' v] props Hk _ IH]; intros target; [reflexivity |].
  cbn [fold_left]. rewrite IH. now apply lookup_insert_ne.
Qed.

(** The spread takes the value of a key from the last property of that
    name. *)
Lemma spread_lookup_last (k : string) (v : json) (props : list (string * json))
    (target : gmap string json) :
  spread target (props ++ [(k, v)]) !! k = Some v.
Proof.
  unfold spread. rewrite fold_left_app. cbn [fold_left]. apply lookup_insert_eq.
Qed.

(** Default construction, [acceptAll] and [rejectAll] pin [necessary]. *)
Lemma necessary_pinned_by_actions (this : CookieConsent) (b : browser) :
  allowed NECESSARY (Controller false default_preferences) = true
  ∧ allowed NECESSARY (outcome_this (acceptAll JSON_stringify this b)) = true
  ∧ allowed NECESSARY (outcome_this (rejectAll JSON_stringify this b)) = true.
Proof.
  unfold allowed. rewrite acceptAll_preferences, rejectAll_preferences.
  repeat split; reflexivity.
Qed.

(** [saveCustomPreferences] does not touch [necessary]: it stays as it
    was, true or not. *)
Lemma saveCustomPreferences_keeps_necessary (this : CookieConsent) (b : browser) :
  preferences (outcome_this (saveCustomPreferences JSON_stringify this b)) !! NECESSARY
  = preferences this !! NECESSARY.
Proof.
  unfold saveCustomPreferences.
  set (rest := (saveConsent JSON_stringify ;; applyCookieSettings ;;
                hideConsentBanner ;; closeSettingsModal)).
  assert (Hrest : keeps_preferences rest).
  { apply keeps_preferences_seq; [apply keeps_preferences_saveConsent |].
    apply keeps_preferences_seq; [apply keeps_preferences_applyCookieSettings |].
    apply keeps_preferences_seq;
      [apply keeps_preferences_hideConsentBanner
      | apply keeps_preferences_closeSettingsModal]. }
  unfold and_then. cbv beta iota.
  rewrite Hrest. cbn [preferences set_preferences].
  now rewrite !lookup_insert_ne by discriminate.
Qed.

(** [loadPreferences] keeps [necessary] when the stored value has no
    property of that name, and takes the stored one when it has. *)
Lemma loadPreferences_necessary (this : CookieConsent) (b : browser) :
  (∀ text parsed,
      getCookie "cookie_preferences" b = Some text → JSON_parse text = Some parsed →
      Forall (λ kv, kv.1 ≠ NECESSARY) (own_properties parsed)) →
  preferences (outcome_this (loadPreferences JSON_parse this b)) !! NECESSARY
  = preferences this !! NECESSARY.
Proof.
  intros H. unfold loadPreferences. cbv zeta.
  destruct (getCookie "cookie_preferences" b) as [text|]; [| reflexivity].
  destruct (truthy_string (Some text)); [| reflexivity].
  destruct (JSON_parse text) as [parsed|] eqn:E; [| reflexivity].
  cbn [outcome_this preferences set_preferences].
  apply spread_lookup_other. now apply (H text).
Qed.

(** [openSettingsModal] with the modal in the document and the first
    checkbox missing. *)
Lemma openSettingsModal_missing_checkbox (this : CookieConsent) (b : browser)
    (modal : element) :
  getElementById "cookie-settings-modal" b = Some modal →
  getElementById "functional-cookies" b = None →
  openSettingsModal this b = Thrown (TypeError "Cannot set properties of null") this b.
Proof.
  intros Hm Hc. unfold openSettingsModal. cbv zeta. rewrite Hm.
  unfold and_then at 1. unfold assign_checked at 1. now rewrite Hc.
Qed.

(** The other lookups of elements tolerate a missing element. *)
Lemma element_lookups_tolerated (this : CookieConsent) (b : browser) :
  completes (showConsentBanner this b) = true
  ∧ completes (hideConsentBanner this b) = true
  ∧ completes (closeSettingsModal this b) = true
  ∧ completes (setupEventListeners this b) = true
  ∧ (getElementById "cookie-settings-modal" b = None →
     openSettingsModal this b = Normal this b).
Proof.
  unfold showConsentBanner, hideConsentBanner, closeSettingsModal, openSettingsModal.
  cbv zeta. repeat split.
  - now destruct (getElementById "cookie-banner" b).
  - now destruct (getElementById "cookie-banner" b).
  - now destruct (getElementById "cookie-settings-modal" b).
  - intros H. now rewrite H.
Qed.

End NecessaryFacts.

(** ** Worked inputs *)

(** C1. The invariant fails on load: with a stored preference object that
    carries [necessary: false], the controller that the page constructs has a
    false [necessary], and a later custom save keeps it false. *)
Theorem necessary_overwritten_on_load :
  let b := Sample.browser_with (Sample.decided_jar Sample.necessary_false_text)
                               Sample.full_dom in
  let loaded := constructor Sample.JSON_parse b in
  document_cookie b
  = "cookie_consent=given; cookie_preferences=" +:+ Sample.necessary_false_text
  ∧ completes loaded = true
  ∧ preferences (outcome_this loaded) !! NECESSARY = Some (JBool false)
  ∧ preferences
      (outcome_this (saveCustomPreferences Sample.JSON_stringify
                       (outcome_this loaded) (outcome_browser loaded))) !! NECESSARY
    = Some (JBool false).
Proof. vm_compute. repeat split; reflexivity. Qed.

(** C2. With the modal in the document and a checkbox missing,
    [openSettingsModal] throws: a click on the settings button of such a page
    ends in a [TypeError], and the modal is not shown. *)
Theorem openSettingsModal_throws_without_checkbox :
  let b := Sample.browser_with [] (delete "functional-cookies" Sample.full_dom) in
  let this := Controller false default_preferences in
  openSettingsModal this b = Thrown (TypeError "Cannot set properties of null") this b
  ∧ ∃ p p',
      DOMContentLoaded Sample.JSON_parse (Page None b) = (None, p)
      ∧ dispatchEvent Sample.JSON_stringify "click" "cookie-settings-btn" p
        = ([TypeError "Cannot set properties of null"], p')
      ∧ style_display <$> getElementById "cookie-settings-modal" (window_browser p')
        = Some ""%string.
Proof.
  split; [reflexivity |].
  eexists. eexists. split; [reflexivity |]. split; vm_compute; reflexivity.
Qed.



Lemma entry_points_before_construction_witness :
  let p := Page None (Sample.browser_with [] Sample.full_dom) in
  window_trackEvent "signup" None p = (None, p)
  ∧ window_saveUserPreference "layout" "wide" None p = (None, p).
Proof.
  exact (entry_points_before_construction
           (Page None (Sample.browser_with [] Sample.full_dom))
           "signup" None "layout" "wide" None eq_refl).
Defined.

Lemma malformed_preferences_fall_back_witness :
  let b := Sample.browser_with (Sample.decided_jar "{oops") Sample.full_dom in
  ∃ b', constructor Sample.JSON_parse b = Normal (Controller true default_preferences) b'
        ∧ console b' = [ConsoleWarn "Failed to parse cookie preferences"]
        ∧ cookie_writes b' = [].
Proof.
  assert (Hne : "{oops"%string ≠ ""%string) by discriminate.
  destruct (malformed_preferences_fall_back Sample.JSON_parse
              (Sample.browser_with (Sample.decided_jar "{oops") Sample.full_dom)
              "{oops" eq_refl eq_refl Hne eq_refl) as [_ H].
  exact H.
Defined.

(** C3 as stated fails: with the functional flag true and the analytics flag
    false, [window.trackEvent] does nothing and [window.saveUserPreference]
    writes the cookie. *)
Lemma entry_points_flags_counterexample :
  let cc := Controller true Sample.functional_only in
  let p := Page (Some cc) (Sample.browser_with [] Sample.full_dom) in
  allowed FUNCTIONAL cc = true
  ∧ allowed ANALYTICS cc = false
  ∧ window_trackEvent "signup" None p = (None, p)
  ∧ cookie_writes (window_browser (window_saveUserPreference "layout" "wide" None p).2)
    = ["layout=wide; expires=Tue, 02 Nov 2027 22:28:00 GMT; path=/; Secure; SameSite=Strict"%string].
Proof. vm_compute. repeat split. Qed.

(** The store at work: a theme saved by a visitor who allowed the functional
    category is read back, and [eraseCookie] removes it. *)
Example saveTheme_then_getCookie :
  let saved := outcome_browser
                 (saveTheme "light" (Controller true Sample.functional_only)
                            Sample.returning_visitor) in
  getCookie "site_theme" Sample.returning_visitor = Some "dark"%string
  ∧ getCookie "site_theme" saved = Some "light"%string
  ∧ getCookie "site_theme" (eraseCookie "site_theme" saved) = None
  ∧ getCookie "cookie_consent" (eraseCookie "site_theme" saved) = Some "given"%string.
Proof. vm_compute. repeat split. Qed.


(** Why the stored theme must be applicable: a stored theme with a space in
    it cannot be a class name, [classList.add] throws, and the exception ends
    [applyCookieSettings] before the routines that follow. *)
Example applyCookieSettings_stops_at_unusable_theme :
  let b := Sample.browser_with
             [CookieStore.Cookie "site_theme" "my theme" None] Sample.full_dom in
  let this := Controller true all_preferences in
  ∃ b', applyCookieSettings this b
        = Thrown (DOMException "InvalidCharacterError") this b'
        ∧ console b' = [functional_enabled].
Proof. eexists. split; vm_compute; reflexivity. Qed.

(** * Further properties *)

(** ** More on the cookie functions *)

Section CookieFunctionFacts.

Import CookieStore.







End CookieFunctionFacts.







Section DateTextFacts.

Lemma digits_without_semicolon (d : Decimal.uint) :
  JsString.mem JsString.semicolon (NilEmpty.string_of_uint d) = false.
Proof. induction d; simpl; auto. Qed.

Lemma decimal_without_semicolon (n : Z) :
  JsString.mem JsString.semicolon (JsDate.decimal n) = false.
Proof.
  unfold JsDate.decimal, NilZero.string_of_uint.
  destruct (N.to_uint (Z.to_N n)); try apply digits_without_semicolon. reflexivity.
Qed.

Lemma zeros_without_semicolon (k : nat) :
  JsString.mem JsString.semicolon (JsString.join "" (repeat "0"%string k)) = false.
Proof.
  induction k as [|k IH]; [reflexivity |].
  destruct k as [|k]; [reflexivity |].
  change (repeat "0"%string (S (S k))) with ("0"%string :: repeat "0"%string (S k)).
  change (JsString.join "" ("0"%string :: repeat "0"%string (S k)))
    with ("0" +:+ "" +:+ JsString.join "" (repeat "0"%string (S k))).
  now rewrite !mem_app, IH.
Qed.

Lemma padded_without_semicolon (width : nat) (n : Z) :
  JsString.mem JsString.semicolon (JsDate.padded width n) = false.
Proof.
  unfold JsDate.padded.
  now rewrite mem_app, zeros_without_semicolon, decimal_without_semicolon.
Qed.

Lemma nth_without_semicolon (i : nat) (names : list string) :
  Forall (λ s, JsString.mem JsString.semicolon s = false) names →
  JsString.mem JsString.semicolon (nth i names ""%string) = false.
Proof.
  intros H. revert i. induction H as [|s names Hs _ IH]; intros [|i]; simpl; auto.
Qed.

(** The text of a date has no semicolon. *)
Lemma toUTCString_without_semicolon (t : Z) :
  JsString.mem JsString.semicolon (JsDate.toUTCString t) = false.
Proof.
  unfold JsDate.toUTCString.
  destruct (8640000000000000 <? Z.abs t); [reflexivity |].
  destruct (JsDate.civil_from_days (t / JsDate.msPerDay)) as [[y m] d].
  rewrite !mem_app, !padded_without_semicolon.
  rewrite !nth_without_semicolon by (repeat constructor).
  destruct (y <? 0); [rewrite mem_app |]; rewrite padded_without_semicolon; reflexivity.
Qed.

End DateTextFacts.

(** X4. The cookie string of [setCookie] carries these attributes, in this
    order: [expires] with the date [days] days ahead when [days] is supplied
    and not 0, [path=/], [Secure] when it is asked for and the page is served
    over https, and [SameSite] with the given policy. Name, value and policy
    are free of [;]. *)
Theorem setCookie_string_attributes (now : Z) (protocol name value : string)
    (days : option Z) (secure : bool) (sameSite : string) :
  JsString.mem JsString.semicolon name = false →
  JsString.mem JsString.semicolon value = false →
  JsString.mem JsString.semicolon sameSite = false →
  cookie_attributes (setCookie_string now protocol name value days secure sameSite)
  = match days with
    | Some d =>
        if d =? 0 then []
        else [("expires"%string,
               Some (JsDate.toUTCString (now + d * JsDate.msPerDay)))]
    | None => []
    end
    ++ [("path"%string, Some "/"%string)]
    ++ (if secure && String.eqb protocol "https:"
        then [("secure"%string, None)] else [])
    ++ [("samesite"%string, Some sameSite)].
Proof.
  intros Hn Hv Hs.
  pose proof (name_value_without_semicolon _ _ Hn Hv) as Hnv.
  assert (Hlast : JsString.split JsString.semicolon (" SameSite=" +:+ sameSite)
                  = [" SameSite=" +:+ sameSite])
    by (apply split_without; now rewrite mem_app, Hs).
  assert (Hcut : JsString.cut JsString.equals_sign (" SameSite=" +:+ sameSite)
                 = (" SameSite"%string, Some sameSite))
    by (change (" SameSite=" +:+ sameSite)
          with (" SameSite" +:+ String JsString.equals_sign sameSite);
        now apply cut_app).
  assert (Hrest : ∀ with_secure : bool,
            map (λ av, let '(n, v) := JsString.cut JsString.equals_sign av in
                       (CookieStore.lowercase (CookieStore.trim n), v))
                (JsString.split JsString.semicolon
                   (" path=/" +:+ (if with_secure then "; Secure" else "") +:+
                    "; SameSite=" +:+ sameSite))
            = [("path"%string, Some "/"%string)]
              ++ (if with_secure then [("secure"%string, None)] else [])
              ++ [("samesite"%string, Some sameSite)]).
  { intros [|].
    - change (" path=/" +:+ "; Secure" +:+ "; SameSite=" +:+ sameSite)
        with (" path=/" +:+ String JsString.semicolon
                (" Secure" +:+ String JsString.semicolon (" SameSite=" +:+ sameSite))).
      rewrite split_app by reflexivity. rewrite split_app by reflexivity.
      rewrite Hlast. cbn [map app]. rewrite Hcut. reflexivity.
    - change (" path=/" +:+ "" +:+ "; SameSite=" +:+ sameSite)
        with (" path=/" +:+ String JsString.semicolon (" SameSite=" +:+ sameSite)).
      rewrite split_app by reflexivity.
      rewrite Hlast. cbn [map app]. rewrite Hcut. reflexivity. }
  rewrite setCookie_string_shape. unfold cookie_attributes, setCookie_expires, days_truthy.
  destruct days as [d|]; [destruct (d =? 0) |]; cbn [negb].
  - rewrite append_nil_l, split_app by assumption. cbn [tail]. apply Hrest.
  - set (date := JsDate.toUTCString (now + d * 24 * 60 * 60 * 1000)).
    assert (Hdate : JsDate.toUTCString (now + d * JsDate.msPerDay) = date).
    { unfold date, JsDate.msPerDay. f_equal. lia. }
    rewrite Hdate.
    change (("; expires=" +:+ date) +:+ String JsString.semicolon
              (" path=/" +:+ (if secure && String.eqb protocol "https:"
                              then "; Secure" else "") +:+ "; SameSite=" +:+ sameSite))
      with (String JsString.semicolon
              ((" expires=" +:+ date) +:+ String JsString.semicolon
                 (" path=/" +:+ (if secure && String.eqb protocol "https:"
                                 then "; Secure" else "") +:+ "; SameSite=" +:+ sameSite))).
    rewrite split_app by assumption. cbn [tail].
    rewrite split_app
      by (rewrite mem_app; unfold date; now rewrite toUTCString_without_semicolon).
    cbn [map app]. rewrite Hrest.
    change (" expires=" +:+ date) with (" expires" +:+ String JsString.equals_sign date).
    rewrite cut_app by reflexivity. reflexivity.
  - rewrite append_nil_l, split_app by assumption. cbn [tail]. apply Hrest.
Qed.

Lemma setCookie_string_attributes_witness :
  cookie_attributes
    (setCookie_string 1793658480000 "https:" "cookie_consent" "given" (Some 365)
                      default_secure default_sameSite)
  = [("expires"%string, Some "Tue, 02 Nov 2027 22:28:00 GMT"%string);
     ("path"%string, Some "/"%string); ("secure"%string, None);
     ("samesite"%string, Some "Strict"%string)].
Proof.
  exact (setCookie_string_attributes 1793658480000 "https:" "cookie_consent" "given"
           (Some 365) default_secure default_sameSite eq_refl eq_refl eq_refl).
Defined.

Section ControllerEffects.

Variable JSON_parse : string → option json.
Variable JSON_stringify : gmap string json → string.

Local Open Scope method_scope.

Lemma spread_lookup (k : string) (props : list (string * json))
    (target : gmap string json) :
  spread target props !! k
  = match last_property k props with
    | Some v => Some v
    | None => target !! k
    end.
Proof.
  unfold spread. revert target.
  induction props as [|[k' v] rest IH]; intros target; [reflexivity |].
  cbn [fold_left last_property]. rewrite IH. cbn [fst snd].
  destruct (last_property k rest); [reflexivity |].
  rewrite lookup_insert. destruct (String.eqb k' k) eqn:E.
  - apply String.eqb_eq in E. now rewrite decide_True.
  - apply String.eqb_neq in E. now rewrite decide_False.
Qed.

(** X5. [loadPreferences] merges the stored object over the current
    preferences: a category takes the value of the last stored property of its
    name, and a category the stored object does not have keeps its current
    value. Nothing else changes. Without a stored text nothing changes at
    all. *)
Theorem loadPreferences_merges (this : CookieConsent) (b : browser) :
  (∀ text parsed,
      getCookie "cookie_preferences" b = Some text → text ≠ ""%string →
      JSON_parse text = Some parsed →
      ∃ merged,
        loadPreferences JSON_parse this b = Normal (Controller (consentGiven this) merged) b
        ∧ ∀ k, merged !! k
               = match last_property k (own_properties parsed) with
                 | Some v => Some v
                 | None => preferences this !! k
                 end)
  ∧ (truthy_string (getCookie "cookie_preferences" b) = false →
     loadPreferences JSON_parse this b = Normal this b).
Proof.
  split.
  - intros text parsed Hc Hne Hp. unfold loadPreferences. cbv zeta. rewrite Hc.
    assert (Ht : truthy_string (Some text) = true)
      by (unfold truthy_string; now apply negb_true_iff, String.eqb_neq).
    rewrite Ht, Hp. eexists. split; [reflexivity |].
    intros k. apply spread_lookup.
  - intros H. unfold loadPreferences. cbv zeta.
    destruct (getCookie "cookie_preferences" b) as [text|]; [| reflexivity].
    now rewrite H.
Qed.

(** X6. [saveCustomPreferences] takes the three optional categories from
    the checkboxes, a missing checkbox counting as unchecked, and leaves every
    other key of the preference object as it is. *)
Theorem saveCustomPreferences_reads_checkboxes (this : CookieConsent) (b : browser) :
  let saved := preferences (outcome_this (saveCustomPreferences JSON_stringify this b)) in
  let state id := match getElementById id b with
                  | Some el => checked el
                  | None => false
                  end in
  saved !! FUNCTIONAL = Some (JBool (state "functional-cookies"%string))
  ∧ saved !! ANALYTICS = Some (JBool (state "analytics-cookies"%string))
  ∧ saved !! MARKETING = Some (JBool (state "marketing-cookies"%string))
  ∧ ∀ k, k ≠ FUNCTIONAL → k ≠ ANALYTICS → k ≠ MARKETING →
         saved !! k = preferences this !! k.
Proof.
  cbv zeta. unfold saveCustomPreferences.
  set (rest := (saveConsent JSON_stringify ;; applyCookieSettings ;;
                hideConsentBanner ;; closeSettingsModal)).
  assert (Hrest : keeps_preferences rest).
  { apply keeps_preferences_seq; [apply keeps_preferences_saveConsent |].
    apply keeps_preferences_seq; [apply keeps_preferences_applyCookieSettings |].
    apply keeps_preferences_seq;
      [apply keeps_preferences_hideConsentBanner
      | apply keeps_preferences_closeSettingsModal]. }
  unfold and_then. cbv beta iota. rewrite Hrest. cbn [preferences set_preferences].
  assert (Hbox : ∀ id, checkbox_or_false id b
                       = match getElementById id b with
                         | Some el => checked el
                         | None => false
                         end).
  { intros id. unfold checkbox_or_false. destruct (getElementById id b); [| reflexivity].
    apply orb_false_r. }
  rewrite <- !Hbox. repeat split.
  - rewrite !lookup_insert_ne by discriminate. apply lookup_insert_eq.
  - rewrite lookup_insert_ne by discriminate. apply lookup_insert_eq.
  - apply lookup_insert_eq.
  - intros k Hf Ha Hm. now rewrite !lookup_insert_ne by congruence.
Qed.

(** X7. Without the functional flag, [applyCookieSettings] writes no cookie
    and leaves the document as it is: the stored cookies, the elements, the
    classes of the body, the language and the font size. Without [gtag] it
    sends no signal either. *)
Theorem applyCookieSettings_without_functional (this : CookieConsent) (b : browser) :
  allowed FUNCTIONAL this = false →
  ∃ b', applyCookieSettings this b = Normal this b'
        ∧ cookie_writes b' = cookie_writes b
        ∧ cookie_jar b' = cookie_jar b
        ∧ document_elements b' = document_elements b
        ∧ body_className b' = body_className b
        ∧ html_lang b' = html_lang b
        ∧ html_fontSize b' = html_fontSize b
        ∧ (gtag_defined b = false → gtag_calls b' = gtag_calls b).
Proof.
  intros Hf.
  destruct (allowed ANALYTICS this) eqn:Ha, (allowed MARKETING this) eqn:Hm,
    (gtag_defined b) eqn:G;
    unfold applyCookieSettings;
    repeat first
      [ rewrite Hf | rewrite Ha | rewrite Hm | rewrite G
      | progress cbn [gtag_defined console_add gtag]
      | progress cbv beta iota
      | progress unfold enableAnalytics, enableMarketing, trackPageView,
          and_then, when, effect ];
    eexists; (split; [reflexivity |]); repeat split; try reflexivity; discriminate.
Qed.

End ControllerEffects.

Ltac browser_simpl :=
  unfold getElementById in *;
  cbv beta iota in *;
  cbn [clock location_protocol location_pathname document_title gtag_defined
       cookie_jar cookie_writes document_elements body_className html_lang
       html_fontSize console gtag_calls
       set_elements set_body_className set_html_lang set_html_fontSize
       console_add gtag document_cookie_assign setCookie
       set_style_display set_checked set_value addEventListener_opt
       getElementById] in *.

Ltac lookup_through_alters :=
  repeat first
    [ rewrite lookup_alter_eq
    | rewrite lookup_alter_ne by (discriminate || congruence) ].

Section BindingFacts.

Variable JSON_parse : string → option json.
Variable JSON_stringify : gmap string json → string.

Local Open Scope method_scope.

Lemma lookup_after_bindings (els : gmap string element) (id : string) :
  alter (λ el, Element (style_display el) (checked el) (value el)
                       (listeners el ++ [("change"%string, OnThemeChange)]))
    "theme-selector"
    (alter (λ el, Element (style_display el) (checked el) (value el)
                          (listeners el ++ [("click"%string, OnCloseModal)]))
       "close-cookie-modal"
       (alter (λ el, Element (style_display el) (checked el) (value el)
                             (listeners el ++ [("click"%string, OnSaveCustom)]))
          "save-cookie-preferences"
          (alter (λ el, Element (style_display el) (checked el) (value el)
                                (listeners el ++ [("click"%string, OnOpenSettings)]))
             "cookie-settings-btn"
             (alter (λ el, Element (style_display el) (checked el) (value el)
                                   (listeners el ++ [("click"%string, OnRejectAll)]))
                "reject-all-cookies"
                (alter (λ el, Element (style_display el) (checked el) (value el)
                                      (listeners el ++ [("click"%string, OnAcceptAll)]))
                   "accept-all-cookies" els))))) !! id
  = with_listener (bound_listener id) <$> els !! id.
Proof.
  unfold bound_listener.
  destruct (String.eqb_spec id "accept-all-cookies") as [->|H1];
    [lookup_through_alters; now destruct (els !! _) |].
  destruct (String.eqb_spec id "reject-all-cookies") as [->|H2];
    [lookup_through_alters; now destruct (els !! _) |].
  destruct (String.eqb_spec id "cookie-settings-btn") as [->|H3];
    [lookup_through_alters; now destruct (els !! _) |].
  destruct (String.eqb_spec id "save-cookie-preferences") as [->|H4];
    [lookup_through_alters; now destruct (els !! _) |].
  destruct (String.eqb_spec id "close-cookie-modal") as [->|H5];
    [lookup_through_alters; now destruct (els !! _) |].
  destruct (String.eqb_spec id "theme-selector") as [->|H6];
    [lookup_through_alters; now destruct (els !! _) |].
  lookup_through_alters. now destruct (els !! id).
Qed.

(** What [setupEventListeners] does to the elements. *)
Lemma setupEventListeners_effect (this : CookieConsent) (b : browser) :
  ∃ b', setupEventListeners this b = Normal this b'
        ∧ (∀ id, getElementById id b'
                 = with_listener (bound_listener id) <$> getElementById id b)
        ∧ cookie_writes b' = cookie_writes b
        ∧ cookie_jar b' = cookie_jar b
        ∧ console b' = console b
        ∧ body_className b' = body_className b.
Proof.
  destruct b as [clk proto path title gt jar writes els cls lang fs con calls].
  unfold setupEventListeners, and_then, effect. browser_simpl.
  eexists. split; [reflexivity |]. browser_simpl. split; [| now repeat split].
  intros id. apply lookup_after_bindings.
Qed.

(** X8. [setupEventListeners] binds each control on its own: an element of
    the six controls that is in the document gets its one listener added
    after those it has, a control that is missing is passed over, and every
    other element and the rest of the browser stay as they are. It never
    throws. *)
Theorem setupEventListeners_binds (this : CookieConsent) (b : browser) :
  ∃ b', setupEventListeners this b = Normal this b'
        ∧ (∀ id, getElementById id b'
                 = with_listener (bound_listener id) <$> getElementById id b)
        ∧ cookie_writes b' = cookie_writes b
        ∧ cookie_jar b' = cookie_jar b
        ∧ console b' = console b
        ∧ body_className b' = body_className b.
Proof. exact (setupEventListeners_effect this b). Qed.

(** The constructor on a first visit. *)
Lemma first_visit_effect (b : browser) :
  truthy_string (getCookie "cookie_consent" b) = false →
  ∃ b', constructor JSON_parse b = Normal (Controller false default_preferences) b'
        ∧ style_display <$> getElementById "cookie-banner" b'
          = (λ _, "block"%string) <$> getElementById "cookie-banner" b
        ∧ (∀ id, id ≠ "cookie-banner"%string →
                 getElementById id b'
                 = with_listener (bound_listener id) <$> getElementById id b)
        ∧ cookie_writes b' = cookie_writes b
        ∧ console b' = console b
        ∧ gtag_calls b' = gtag_calls b
        ∧ body_className b' = body_className b.
Proof.
  intros Hc. unfold constructor, init. unfold and_then at 1. cbv zeta. rewrite Hc.
  clear Hc. unfold showConsentBanner. cbv zeta.
  destruct b as [clk proto path title gt jar writes els cls lang fs con calls].
  unfold setupEventListeners, and_then, effect. browser_simpl.
  destruct (els !! "cookie-banner") as [banner|] eqn:E; browser_simpl;
    (eexists; split; [reflexivity |]); browser_simpl;
    (split; [| split; [| now repeat split]]).
  - rewrite lookup_after_bindings, lookup_alter_eq, E. reflexivity.
  - intros id Hid. rewrite lookup_after_bindings.
    now rewrite lookup_alter_ne by congruence.
  - now rewrite lookup_after_bindings, E.
  - intros id Hid. apply lookup_after_bindings.
Qed.

(** X9. On a first visit, without a consent cookie, the constructor shows
    the banner and binds the controls; the preferences are the defaults,
    consent is not given, no cookie is written and nothing is logged. *)
Theorem first_visit_shows_banner (b : browser) :
  truthy_string (getCookie "cookie_consent" b) = false →
  ∃ b', constructor JSON_parse b = Normal (Controller false default_preferences) b'
        ∧ style_display <$> getElementById "cookie-banner" b'
          = (λ _, "block"%string) <$> getElementById "cookie-banner" b
        ∧ (∀ id, id ≠ "cookie-banner"%string →
                 getElementById id b'
                 = with_listener (bound_listener id) <$> getElementById id b)
        ∧ cookie_writes b' = cookie_writes b
        ∧ console b' = console b
        ∧ gtag_calls b' = gtag_calls b
        ∧ body_className b' = body_className b.
Proof. exact (first_visit_effect b). Qed.

(** X10. [rejectAll] returns normally with the default preferences and
    consent given; it writes the two consent cookies, hides the banner and
    does nothing else: nothing is logged, nothing is sent to [gtag] and the
    classes of the body stay. *)
Theorem rejectAll_enables_nothing (this : CookieConsent) (b : browser) :
  ∃ b', rejectAll JSON_stringify this b = Normal (Controller true default_preferences) b'
        ∧ cookie_writes b'
          = cookie_writes b
            ++ [year_cookie b "cookie_consent" "given";
                year_cookie b "cookie_preferences" (JSON_stringify default_preferences)]
        ∧ console b' = console b
        ∧ gtag_calls b' = gtag_calls b
        ∧ body_className b' = body_className b
        ∧ style_display <$> getElementById "cookie-banner" b'
          = (λ _, "none"%string) <$> getElementById "cookie-banner" b.
Proof.
  assert (Hnone : ∀ b1, applyCookieSettings (Controller true default_preferences) b1
                        = Normal (Controller true default_preferences) b1)
    by reflexivity.
  pose proof (year_cookie_string b "cookie_consent" "given") as Y1.
  pose proof (year_cookie_string b "cookie_preferences"
                (JSON_stringify default_preferences)) as Y2.
  destruct b as [clk proto path title gt jar writes els cls lang fs con calls].
  unfold rejectAll, and_then, saveConsent, effect, and_then, assign_this.
  browser_simpl. cbn [preferences set_preferences set_consentGiven consentGiven].
  rewrite Hnone. unfold setCookie, document_cookie_assign.
  browser_simpl. unfold hideConsentBanner. browser_simpl.
  destruct (els !! "cookie-banner") as [el|] eqn:E; browser_simpl;
    (eexists; split; [reflexivity |]); browser_simpl;
    rewrite Y1, Y2, <- app_assoc; repeat split.
  - now rewrite lookup_alter_eq, E.
  - now rewrite E.
Qed.

(** X11. With the modal and the three checkboxes in the document,
    [openSettingsModal] returns normally, sets each checkbox to the flag of
    its category and shows the modal; it writes no cookie and logs nothing. *)
Theorem openSettingsModal_shows_preferences (this : CookieConsent) (b : browser)
    (modal functional analytics marketing : element) :
  getElementById "cookie-settings-modal" b = Some modal →
  getElementById "functional-cookies" b = Some functional →
  getElementById "analytics-cookies" b = Some analytics →
  getElementById "marketing-cookies" b = Some marketing →
  ∃ b', openSettingsModal this b = Normal this b'
        ∧ checked <$> getElementById "functional-cookies" b'
          = Some (allowed FUNCTIONAL this)
        ∧ checked <$> getElementById "analytics-cookies" b'
          = Some (allowed ANALYTICS this)
        ∧ checked <$> getElementById "marketing-cookies" b'
          = Some (allowed MARKETING this)
        ∧ style_display <$> getElementById "cookie-settings-modal" b'
          = Some "block"%string
        ∧ cookie_writes b' = cookie_writes b
        ∧ console b' = console b.
Proof.
  destruct b as [clk proto path title gt jar writes els cls lang fs con calls].
  browser_simpl. intros Hm Hf Ha Hk.
  unfold openSettingsModal. cbv zeta. browser_simpl. rewrite Hm.
  unfold and_then, assign_checked, effect. browser_simpl. rewrite Hf.
  browser_simpl. lookup_through_alters. rewrite Ha.
  browser_simpl. lookup_through_alters. rewrite Hk.
  eexists. split; [reflexivity |]. browser_simpl.
  repeat split; lookup_through_alters; rewrite ?Hf, ?Ha, ?Hk, ?Hm; reflexivity.
Qed.

End BindingFacts.

Section PersistenceFacts.

Variable JSON_parse : string → option json.
Variable JSON_stringify : gmap string json → string.

Local Open Scope method_scope.

Lemma side_effect_only_seq (m1 m2 : method) :
  side_effect_only m1 → side_effect_only m2 → side_effect_only (m1 ;; m2).
Proof.
  intros H1 H2 this b. unfold and_then.
  destruct (H1 this b) as [T1 (more1 & W1)].
  destruct (m1 this b) as [this' b'|e this' b']; simpl in *; subst this'.
  - destruct (H2 this b') as [T2 (more2 & W2)]. split; [exact T2 |].
    exists (more1 ++ more2). now rewrite W2, W1, app_assoc.
  - split; eauto.
Qed.

Lemma side_effect_only_when (cond : CookieConsent → browser → bool) (m : method) :
  side_effect_only m → side_effect_only (when cond m).
Proof.
  intros H this b. unfold when. destruct (cond this b); [apply H |].
  split; [reflexivity |]. exists []. now rewrite app_nil_r.
Qed.

Lemma side_effect_only_effect (f : browser → browser) :
  (∀ b, ∃ more, cookie_writes (f b) = cookie_writes b ++ more) →
  side_effect_only (effect f).
Proof. intros H this b. split; [reflexivity | apply H]. Qed.

Lemma side_effect_only_quiet (f : browser → browser) :
  (∀ b, cookie_writes (f b) = cookie_writes b) → side_effect_only (effect f).
Proof.
  intros H. apply side_effect_only_effect. intros b. exists [].
  now rewrite H, app_nil_r.
Qed.

Lemma side_effect_only_setCookie (name value : string) (days : option Z) :
  side_effect_only (effect (setCookie name value days default_secure default_sameSite)).
Proof. apply side_effect_only_effect. intros b. eexists. reflexivity. Qed.

Lemma side_effect_only_return (this : CookieConsent) (b : browser) :
  outcome_this (Normal this b) = this
  ∧ ∃ more, cookie_writes (outcome_browser (Normal this b)) = cookie_writes b ++ more.
Proof. split; [reflexivity |]. exists []. simpl. now rewrite app_nil_r. Qed.

Lemma side_effect_only_applyTheme (theme : string) :
  side_effect_only (applyTheme theme).
Proof.
  intros this b. unfold applyTheme. cbv zeta.
  destruct (ClassList.add _ _); [| destruct (getElementById _ _)];
    (split; [reflexivity |]); exists []; simpl; now rewrite app_nil_r.
Qed.

Lemma side_effect_only_setLanguage (lang : string) :
  side_effect_only (setLanguage lang).
Proof.
  apply side_effect_only_when, side_effect_only_seq;
    [apply side_effect_only_setCookie | now apply side_effect_only_quiet].
Qed.

Lemma side_effect_only_setFontSize (size : string) :
  side_effect_only (setFontSize size).
Proof.
  apply side_effect_only_when, side_effect_only_seq;
    [apply side_effect_only_setCookie | now apply side_effect_only_quiet].
Qed.

Lemma side_effect_only_loadUserPreferences : side_effect_only loadUserPreferences.
Proof.
  apply side_effect_only_seq; intros this b; cbv beta zeta.
  - destruct (getCookie "preferred_language" b) as [v|];
      [| apply side_effect_only_return].
    destruct (truthy_string (Some v));
      [apply side_effect_only_setLanguage | apply side_effect_only_return].
  - destruct (getCookie "font_size" b) as [v|]; [| apply side_effect_only_return].
    destruct (truthy_string (Some v));
      [apply side_effect_only_setFontSize | apply side_effect_only_return].
Qed.

Lemma side_effect_only_enableFunctionalCookies :
  side_effect_only enableFunctionalCookies.
Proof.
  apply side_effect_only_seq; [now apply side_effect_only_quiet |].
  apply side_effect_only_seq; [| apply side_effect_only_loadUserPreferences].
  intros this b. cbv beta zeta.
  destruct (getCookie "site_theme" b) as [v|]; [| apply side_effect_only_return].
  destruct (truthy_string (Some v));
    [apply side_effect_only_applyTheme | apply side_effect_only_return].
Qed.

Lemma side_effect_only_enableAnalytics : side_effect_only enableAnalytics.
Proof.
  apply side_effect_only_seq; [now apply side_effect_only_quiet |].
  apply side_effect_only_seq;
    [apply side_effect_only_when; now apply side_effect_only_quiet |].
  apply side_effect_only_when. intros this b. split; [reflexivity |].
  exists []. simpl. now rewrite app_nil_r.
Qed.

Lemma side_effect_only_enableMarketing : side_effect_only enableMarketing.
Proof.
  apply side_effect_only_seq; [now apply side_effect_only_quiet |].
  apply side_effect_only_when. now apply side_effect_only_quiet.
Qed.

Lemma side_effect_only_applyCookieSettings : side_effect_only applyCookieSettings.
Proof.
  apply side_effect_only_seq;
    [apply side_effect_only_when, side_effect_only_enableFunctionalCookies |].
  apply side_effect_only_seq; apply side_effect_only_when.
  - apply side_effect_only_enableAnalytics.
  - apply side_effect_only_enableMarketing.
Qed.

Lemma side_effect_only_hideConsentBanner : side_effect_only hideConsentBanner.
Proof.
  intros this b. unfold hideConsentBanner. cbv zeta.
  destruct (getElementById _ _); (split; [reflexivity |]); exists [];
    simpl; now rewrite app_nil_r.
Qed.

Lemma side_effect_only_closeSettingsModal : side_effect_only closeSettingsModal.
Proof.
  intros this b. unfold closeSettingsModal. cbv zeta.
  destruct (getElementById _ _); (split; [reflexivity |]); exists [];
    simpl; now rewrite app_nil_r.
Qed.

(** What [saveConsent] followed by side effects leaves behind, however the
    side effects end. *)
Lemma saveConsent_then (rest : method) (this : CookieConsent) (b : browser) :
  side_effect_only rest →
  outcome_this ((saveConsent JSON_stringify ;; rest) this b)
  = Controller true (preferences this)
  ∧ ∃ more,
      cookie_writes (outcome_browser ((saveConsent JSON_stringify ;; rest) this b))
      = cookie_writes b
        ++ [year_cookie b "cookie_consent" "given";
            year_cookie b "cookie_preferences" (JSON_stringify (preferences this))]
        ++ more.
Proof.
  intros Hrest.
  pose proof (year_cookie_string b "cookie_consent" "given") as Y1.
  pose proof (year_cookie_string b "cookie_preferences"
                (JSON_stringify (preferences this))) as Y2.
  unfold saveConsent, and_then, effect, assign_this, set_consentGiven.
  destruct (Hrest (Controller true (preferences this))
              (setCookie "cookie_preferences" (JSON_stringify (preferences this))
                 (Some 365) default_secure default_sameSite
                 (setCookie "cookie_consent" "given" (Some 365) default_secure
                            default_sameSite b))) as [T (more & W)].
  split; [exact T |]. exists more. rewrite W.
  destruct b as [clk proto path title gt jar writes els cls lang fs con calls].
  unfold setCookie, document_cookie_assign.
  cbn [cookie_writes clock location_protocol] in *.
  rewrite Y1, Y2. now rewrite <- !app_assoc.
Qed.

(** The three consent actions persist before they apply. *)
Lemma consent_actions_persist (this : CookieConsent) (b : browser)
    (o : outcome) :
  o = acceptAll JSON_stringify this b
  ∨ o = rejectAll JSON_stringify this b
  ∨ o = saveCustomPreferences JSON_stringify this b →
  consentGiven (outcome_this o) = true
  ∧ ∃ more,
      cookie_writes (outcome_browser o)
      = cookie_writes b
        ++ [year_cookie b "cookie_consent" "given";
            year_cookie b "cookie_preferences"
                        (JSON_stringify (preferences (outcome_this o)))]
        ++ more.
Proof.
  assert (Htail : side_effect_only (applyCookieSettings ;; hideConsentBanner)).
  { apply side_effect_only_seq;
      [apply side_effect_only_applyCookieSettings
      | apply side_effect_only_hideConsentBanner]. }
  assert (Htail' : side_effect_only
                     (applyCookieSettings ;; hideConsentBanner ;; closeSettingsModal)).
  { apply side_effect_only_seq; [apply side_effect_only_applyCookieSettings |].
    apply side_effect_only_seq;
      [apply side_effect_only_hideConsentBanner
      | apply side_effect_only_closeSettingsModal]. }
  intros [-> | [-> | ->]].
  - change (acceptAll JSON_stringify this b)
      with ((saveConsent JSON_stringify ;; applyCookieSettings ;; hideConsentBanner)
              (set_preferences all_preferences this) b).
    destruct (saveConsent_then _ (set_preferences all_preferences this) b Htail)
      as [T (more & W)].
    rewrite T. split; [reflexivity |]. exists more. exact W.
  - change (rejectAll JSON_stringify this b)
      with ((saveConsent JSON_stringify ;; applyCookieSettings ;; hideConsentBanner)
              (set_preferences default_preferences this) b).
    destruct (saveConsent_then _ (set_preferences default_preferences this) b Htail)
      as [T (more & W)].
    rewrite T. split; [reflexivity |]. exists more. exact W.
  - set (custom :=
           set_preferences
             (<[MARKETING := JBool (checkbox_or_false "marketing-cookies" b)]>
                (<[ANALYTICS := JBool (checkbox_or_false "analytics-cookies" b)]>
                   (<[FUNCTIONAL := JBool (checkbox_or_false "functional-cookies" b)]>
                      (preferences this))))
             this).
    change (saveCustomPreferences JSON_stringify this b)
      with ((saveConsent JSON_stringify ;; applyCookieSettings ;;
             hideConsentBanner ;; closeSettingsModal) custom b).
    destruct (saveConsent_then _ custom b Htail') as [T (more & W)].
    rewrite T. split; [reflexivity |]. exists more. exact W.
Qed.

(** X12. Each of the three consent actions records the decision before it
    applies it: however the call ends, normally or by an exception of a side
    effect, consent is given in the controller and the two consent cookies,
    the marker and the preferences the controller now has, were written
    first, with an expiration 365 days ahead. *)
Theorem consent_persisted_before_applying (this : CookieConsent) (b : browser)
    (o : outcome) :
  o = acceptAll JSON_stringify this b
  ∨ o = rejectAll JSON_stringify this b
  ∨ o = saveCustomPreferences JSON_stringify this b →
  consentGiven (outcome_this o) = true
  ∧ ∃ more,
      cookie_writes (outcome_browser o)
      = cookie_writes b
        ++ [year_cookie b "cookie_consent" "given";
            year_cookie b "cookie_preferences"
                        (JSON_stringify (preferences (outcome_this o)))]
        ++ more.
Proof. exact (consent_actions_persist this b o). Qed.

Lemma has_whitespace_not_empty (s : string) :
  ClassList.has_whitespace s = true → truthy_string (Some s) = true.
Proof. now destruct s. Qed.

(** [applyTheme] with a theme that cannot be a class name: the theme
    classes are removed, then [classList.add] throws. *)
Lemma applyTheme_unusable (theme : string) (this : CookieConsent) (b : browser) :
  ClassList.has_whitespace theme = true →
  applyTheme theme this b
  = Thrown (DOMException "InvalidCharacterError") this
      (set_body_className (ClassList.remove_themes 0 (body_className b)) b).
Proof.
  intros Hw. unfold applyTheme, ClassList.add. cbv zeta.
  rewrite has_whitespace_app, Hw.
  assert (Hne : ∃ c r, theme +:+ "-theme" = String c r)
    by (destruct theme; rewrite ?append_cons, ?append_nil_l; eauto).
  destruct Hne as (c & r & ->). reflexivity.
Qed.

(** X13. [saveTheme] with a theme that has white space in it, the
    functional flag being true: the theme cookie is written all the same, the
    old theme classes are removed from the body, and the call ends in an
    [InvalidCharacterError] without a new theme class. *)
Theorem saveTheme_unusable_theme (theme : string) (this : CookieConsent) (b : browser) :
  allowed FUNCTIONAL this = true →
  ClassList.has_whitespace theme = true →
  ∃ b', saveTheme theme this b = Thrown (DOMException "InvalidCharacterError") this b'
        ∧ cookie_writes b' = cookie_writes b ++ [year_cookie b "site_theme" theme]
        ∧ body_className b' = ClassList.remove_themes 0 (body_className b).
Proof.
  intros Hf Hw. unfold saveTheme, when. rewrite Hf.
  unfold and_then, effect. rewrite (applyTheme_unusable _ _ _ Hw).
  pose proof (year_cookie_string b "site_theme" theme) as Y.
  destruct b as [clk proto path title gt jar writes els cls lang fs con calls].
  eexists. split; [reflexivity |]. split; [| reflexivity].
  cbn in *. now rewrite Y.
Qed.

(** X14. A stored theme with white space in it stops the controller from
    being constructed: for a visitor who has decided and allowed the
    functional category, the constructor ends in an [InvalidCharacterError]
    before the controls are bound, so [window.cookieConsent] stays unset and
    no element has a listener added. *)
Theorem unusable_stored_theme_stops_construction (b : browser) (theme : string) :
  truthy_string (getCookie "cookie_consent" b) = true →
  allowed FUNCTIONAL
    (outcome_this (loadPreferences JSON_parse (Controller true default_preferences) b))
  = true →
  getCookie "site_theme" b = Some theme →
  ClassList.has_whitespace theme = true →
  ∃ b', DOMContentLoaded JSON_parse (Page None b)
        = (Some (DOMException "InvalidCharacterError"), Page None b')
        ∧ document_elements b' = document_elements b
        ∧ cookie_writes b' = cookie_writes b.
Proof.
  intros Hc Hf Ht Hw.
  assert (Hload : ∃ this1,
             loadPreferences JSON_parse (Controller true default_preferences) b
             = Normal this1 b ∧ allowed FUNCTIONAL this1 = true).
  { revert Hf. unfold loadPreferences. cbv zeta.
    destruct (getCookie "cookie_preferences" b) as [text|]; [| discriminate].
    destruct (truthy_string (Some text)); [| discriminate].
    destruct (JSON_parse text); [| discriminate].
    intros Hf. eexists. split; [reflexivity | exact Hf]. }
  destruct Hload as (this1 & Hload & Hf1).
  unfold DOMContentLoaded, constructor, init. cbn [window_browser].
  unfold and_then at 1. cbv zeta. rewrite Hc.
  unfold and_then at 1. unfold assign_this at 1.
  unfold and_then at 1.
  change (set_consentGiven true (Controller false default_preferences))
    with (Controller true default_preferences).
  rewrite Hload.
  unfold applyCookieSettings. unfold and_then at 1. unfold when at 1. rewrite Hf1.
  unfold enableFunctionalCookies. unfold and_then at 1. unfold effect at 1.
  unfold and_then at 1. cbv beta zeta.
  change (getCookie "site_theme" (console_add (ConsoleLog "Functional cookies enabled") b))
    with (getCookie "site_theme" b).
  rewrite Ht, (has_whitespace_not_empty _ Hw), (applyTheme_unusable _ _ _ Hw).
  eexists. split; [reflexivity |]. split; reflexivity.
Qed.

End PersistenceFacts.

Section ThemeFacts.

Local Open Scope method_scope.

Lemma length_app (s t : string) :
  String.length (s +:+ t) = (String.length s + String.length t)%nat.
Proof.
  induction s as [|c s IH]; [reflexivity |].
  rewrite append_cons. simpl. now rewrite IH.
Qed.

Lemma skip_word_words (t x : string) :
  word_theme t = true → ClassList.skip_word (t +:+ x) = ClassList.skip_word x.
Proof.
  induction t as [|c t IH]; [reflexivity |].
  unfold word_theme. cbn [Header.all_chars]. intros H.
  apply andb_true_iff in H as [Hc Ht].
  rewrite append_cons. cbn [ClassList.skip_word]. rewrite Hc. now apply IH.
Qed.

Lemma remove_themes_skip (u r : string) :
  ClassList.remove_themes (String.length u) (u +:+ r) = ClassList.remove_themes 0 r.
Proof.
  induction u as [|c u IH]; [reflexivity |].
  rewrite append_cons. simpl. exact IH.
Qed.

(** A whole theme class at the start is removed. *)
Lemma remove_themes_theme (t r : string) :
  word_theme t = true →
  ClassList.remove_themes 0 ((t +:+ "-theme") +:+ r) = ClassList.remove_themes 0 r.
Proof.
  intros Ht.
  assert (Hmatch : ClassList.theme_match ((t +:+ "-theme") +:+ r)
                   = Some (String.length (t +:+ "-theme"))).
  { unfold ClassList.theme_match. rewrite append_assoc, skip_word_words by assumption.
    change (ClassList.skip_word ("-theme" +:+ r)) with ("-theme" +:+ r).
    change (JsString.starts_with "-theme" ("-theme" +:+ r)) with true. cbv iota.
    f_equal. rewrite !length_app. simpl. lia. }
  destruct (t +:+ "-theme") as [|c s] eqn:E.
  - destruct t; discriminate.
  - rewrite append_cons in *. simpl. rewrite Hmatch. simpl.
    apply remove_themes_skip.
Qed.

Lemma skip_word_mem (c : ascii) (s : string) :
  JsString.mem c (ClassList.skip_word s) = true → JsString.mem c s = true.
Proof.
  induction s as [|d s IH]; simpl; [discriminate |].
  destruct (ClassList.is_word d); [| auto].
  intros H. rewrite (IH H). apply orb_true_r.
Qed.

Lemma theme_match_without_hyphen (s : string) :
  JsString.mem hyphen (ClassList.skip_word s) = false → ClassList.theme_match s = None.
Proof.
  intros H. unfold ClassList.theme_match.
  destruct (JsString.starts_with "-theme" (ClassList.skip_word s)) eqn:E; [| reflexivity].
  apply (starts_with_mem hyphen) in E; [congruence | reflexivity].
Qed.

(** Without a hyphen there is nothing to remove. *)
Lemma remove_themes_without_hyphen (s : string) :
  JsString.mem hyphen s = false → ClassList.remove_themes 0 s = s.
Proof.
  induction s as [|c s IH]; [reflexivity |].
  intros H. cbn [ClassList.remove_themes].
  rewrite theme_match_without_hyphen.
  - simpl in H. apply orb_false_iff in H as [_ H]. now rewrite IH.
  - destruct (JsString.mem hyphen (ClassList.skip_word (String c s))) eqn:E;
      [| reflexivity].
    apply skip_word_mem in E. congruence.
Qed.

Lemma skip_word_stops_at_space (u rest : string) :
  JsString.mem hyphen u = false →
  JsString.starts_with "-theme"
    (ClassList.skip_word (u +:+ String JsString.space rest)) = false.
Proof.
  induction u as [|e u IH]; rewrite ?append_cons, ?append_nil_l; simpl.
  - intros _. reflexivity.
  - intros H. apply orb_false_iff in H as [He Hu].
    destruct (ClassList.is_word e); [now apply IH |].
    simpl. unfold hyphen in He. rewrite Ascii.eqb_sym in He.
    change (Ascii.eqb "-" e) with (Ascii.eqb (Ascii.ascii_of_nat 45) e).
    now rewrite He.
Qed.

(** A class without a hyphen in front of a space stays. *)
Lemma remove_themes_class (c rest : string) :
  JsString.mem hyphen c = false →
  ClassList.remove_themes 0 (c +:+ String JsString.space rest)
  = c +:+ String JsString.space (ClassList.remove_themes 0 rest).
Proof.
  induction c as [|e c IH]; rewrite ?append_cons, ?append_nil_l.
  - intros _. reflexivity.
  - intros H. pose proof H as H'. simpl in H'. apply orb_false_iff in H' as [He Hc].
    cbn [ClassList.remove_themes].
    assert (Hm : ClassList.theme_match (String e (c +:+ String JsString.space rest))
                 = None).
    { unfold ClassList.theme_match.
      rewrite <- append_cons. now rewrite skip_word_stops_at_space. }
    rewrite Hm. now rewrite IH.
Qed.

Lemma other_class_parts (c : string) :
  other_class c = true →
  c ≠ ""%string ∧ ClassList.has_whitespace c = false ∧ JsString.mem hyphen c = false.
Proof.
  unfold other_class. rewrite !andb_true_iff, !negb_true_iff.
  intros [[H1 H2] H3]. apply String.eqb_neq in H1. tauto.
Qed.

Lemma join_without_hyphen (classes : list string) :
  Forall (λ c, other_class c = true) classes →
  JsString.mem hyphen (JsString.join " " classes) = false.
Proof.
  induction 1 as [|c rest Hc Hrest IH]; [reflexivity |].
  apply other_class_parts in Hc as (_ & _ & Hc).
  destruct rest as [|d rest]; [exact Hc |].
  change (JsString.join " " (c :: d :: rest))
    with (c +:+ " " +:+ JsString.join " " (d :: rest)).
  now rewrite !mem_app, Hc, IH.
Qed.

(** Removing the theme classes from a class attribute that ends in one. *)
Lemma remove_themes_classes_theme (classes : list string) (old : string) :
  Forall (λ c, other_class c = true) classes → word_theme old = true →
  ClassList.remove_themes 0 (JsString.join " " (classes ++ [old +:+ "-theme"]))
  = spaced classes.
Proof.
  intros Hcs Hold. induction Hcs as [|c rest Hc _ IH].
  - simpl. rewrite <- (append_nil_r (old +:+ "-theme")).
    now rewrite remove_themes_theme.
  - apply other_class_parts in Hc as (_ & _ & Hc).
    assert (Hjoin : JsString.join " " ((c :: rest) ++ [old +:+ "-theme"])
                    = c +:+ String JsString.space
                        (JsString.join " " (rest ++ [old +:+ "-theme"]))).
    { cbn [app]. destruct (rest ++ [old +:+ "-theme"]) eqn:E; [| reflexivity].
      now destruct rest. }
    rewrite Hjoin, remove_themes_class by assumption. simpl. now rewrite IH.
Qed.

Lemma split_tokens_token (cur tok : string) :
  ClassList.has_whitespace tok = false → cur +:+ tok ≠ ""%string →
  ClassList.split_tokens cur tok = [cur +:+ tok].
Proof.
  revert cur. induction tok as [|c tok IH]; intros cur Hw Hne.
  - rewrite append_nil_r in *. simpl. now destruct cur.
  - simpl in Hw. apply orb_false_iff in Hw as [Hc Hw].
    cbn [ClassList.split_tokens]. rewrite Hc.
    rewrite IH; [| assumption |].
    + now rewrite append_assoc.
    + rewrite append_assoc. exact Hne.
Qed.

Lemma split_tokens_spaced_token (cur tok rest : string) :
  ClassList.has_whitespace tok = false → cur +:+ tok ≠ ""%string →
  ClassList.split_tokens cur (tok +:+ String JsString.space rest)
  = (cur +:+ tok) :: ClassList.split_tokens "" rest.
Proof.
  revert cur. induction tok as [|c tok IH]; intros cur Hw Hne.
  - rewrite append_nil_r in *. rewrite append_nil_l.
    cbn [ClassList.split_tokens].
    change (ClassList.is_ascii_whitespace JsString.space) with true. cbv iota.
    now destruct cur.
  - simpl in Hw. apply orb_false_iff in Hw as [Hc Hw].
    rewrite append_cons. cbn [ClassList.split_tokens]. rewrite Hc.
    rewrite IH; [| assumption |].
    + now rewrite append_assoc.
    + rewrite append_assoc. exact Hne.
Qed.

Lemma split_tokens_spaced (classes : list string) :
  Forall (λ c, other_class c = true) classes →
  ClassList.split_tokens "" (spaced classes) = classes.
Proof.
  induction 1 as [|c rest Hc _ IH]; [reflexivity |].
  apply other_class_parts in Hc as (Hne & Hw & _).
  simpl. rewrite split_tokens_spaced_token by assumption. now rewrite IH.
Qed.

Lemma split_tokens_join (classes : list string) :
  Forall (λ c, other_class c = true) classes →
  ClassList.split_tokens "" (JsString.join " " classes) = classes.
Proof.
  induction 1 as [|c rest Hc Hrest IH]; [reflexivity |].
  apply other_class_parts in Hc as (Hne & Hw & _).
  destruct rest as [|d rest].
  - simpl. now apply split_tokens_token.
  - change (JsString.join " " (c :: d :: rest))
      with (c +:+ String JsString.space (JsString.join " " (d :: rest))).
    rewrite split_tokens_spaced_token by assumption. now rewrite IH.
Qed.

Lemma has_token_false (t : string) (ts : list string) :
  ¬ In t ts → ClassList.has_token t ts = false.
Proof.
  intros H. unfold ClassList.has_token.
  destruct (existsb (String.eqb t) ts) eqn:E; [| reflexivity].
  apply existsb_exists in E as (x & Hx & Hxt). apply String.eqb_eq in Hxt.
  subst. contradiction.
Qed.

Lemma token_set_fold (l acc : list string) :
  List.NoDup (acc ++ l) →
  fold_left (λ acc t, if ClassList.has_token t acc then acc else acc ++ [t]) l acc
  = acc ++ l.
Proof.
  revert acc. induction l as [|t l IH]; intros acc H; simpl.
  - now rewrite app_nil_r.
  - assert (Ht : ¬ In t acc).
    { apply List.NoDup_remove_2 in H. intros Hin. apply H.
      apply in_or_app. now left. }
    rewrite (has_token_false _ _ Ht).
    rewrite IH; [now rewrite <- app_assoc |].
    now rewrite <- app_assoc.
Qed.

Lemma token_set_tokens (className : string) (classes : list string) :
  ClassList.split_tokens "" className = classes → List.NoDup classes →
  ClassList.token_set className = classes.
Proof.
  intros Hs Hd. unfold ClassList.token_set. rewrite Hs.
  now rewrite token_set_fold.
Qed.

Lemma word_theme_no_whitespace (t : string) :
  word_theme t = true → ClassList.has_whitespace t = false.
Proof.
  induction t as [|c t IH]; [reflexivity |].
  unfold word_theme. simpl. intros H. apply andb_true_iff in H as [Hc Ht].
  rewrite (IH Ht), orb_false_r.
  destruct c as [[] [] [] [] [] [] [] []]; try reflexivity; discriminate Hc.
Qed.

Lemma theme_class_not_other (t : string) (classes : list string) :
  Forall (λ c, other_class c = true) classes → ¬ In (t +:+ "-theme") classes.
Proof.
  intros H Hin. rewrite List.Forall_forall in H. specialize (H _ Hin).
  apply other_class_parts in H as (_ & _ & H).
  rewrite mem_app in H. apply orb_false_iff in H as [_ H]. discriminate H.
Qed.

(** X15. [applyTheme] swaps the theme class and keeps the other classes:
    when the body has classes without hyphens, with or without one theme
    class after them, it has the same classes afterwards, followed by the
    class of the new theme. The theme names are made of word characters. *)
Theorem applyTheme_swaps_theme (this : CookieConsent) (b : browser)
    (classes : list string) (old : option string) (new : string) :
  Forall (λ c, other_class c = true) classes → List.NoDup classes →
  word_theme new = true →
  match old with Some t => word_theme t = true | None => True end →
  body_className b
  = JsString.join " " (classes ++ match old with
                                  | Some t => [t +:+ "-theme"]
                                  | None => []
                                  end) →
  ∃ b', applyTheme new this b = Normal this b'
        ∧ body_className b' = JsString.join " " (classes ++ [new +:+ "-theme"]).
Proof.
  intros Hcs Hnd Hnew Hold Hbody.
  assert (Htokens : ClassList.token_set
                      (ClassList.remove_themes 0 (body_className b)) = classes).
  { rewrite Hbody. destruct old as [t|].
    - rewrite remove_themes_classes_theme by assumption.
      apply token_set_tokens; [now apply split_tokens_spaced | assumption].
    - rewrite app_nil_r.
      rewrite remove_themes_without_hyphen by (now apply join_without_hyphen).
      apply token_set_tokens; [now apply split_tokens_join | assumption]. }
  unfold applyTheme, ClassList.add. cbv zeta.
  rewrite has_whitespace_app, (word_theme_no_whitespace _ Hnew).
  assert (Hne : ∃ c r, new +:+ "-theme" = String c r)
    by (destruct new; rewrite ?append_cons, ?append_nil_l; eauto).
  destruct Hne as (c & r & E). rewrite E.
  change (ClassList.has_whitespace "-theme") with false. cbv iota. cbn [orb].
  destruct b as [clk proto path title gt jar writes els cls lang fs con calls].
  cbn [body_className set_body_className] in *. rewrite Htokens.
  rewrite has_token_false by (rewrite <- E; now apply theme_class_not_other).
  unfold getElementById. cbn [document_elements set_body_className].
  destruct (els !! "theme-selector"); eexists; (split; [reflexivity |]);
    reflexivity.
Qed.

Lemma applyTheme_swaps_theme_witness :
  ∃ b', applyTheme "dark" (Controller true Sample.functional_only)
          (set_body_className "home wide light-theme" Sample.returning_visitor)
        = Normal (Controller true Sample.functional_only) b'
        ∧ body_className b' = "home wide dark-theme"%string.
Proof.
  apply (applyTheme_swaps_theme (Controller true Sample.functional_only)
           (set_body_className "home wide light-theme" Sample.returning_visitor)
           ["home"; "wide"]%string (Some "light"%string) "dark").
  - repeat constructor.
  - repeat constructor; simpl; intuition discriminate.
  - reflexivity.
  - reflexivity.
  - reflexivity.
Defined.

End ThemeFacts.

Section VisitFacts.

Variable JSON_parse : string → option json.
Variable JSON_stringify : gmap string json → string.

Local Open Scope method_scope.

Lemma no_signal_seq (m1 m2 : method) :
  no_signal m1 → no_signal m2 → no_signal (m1 ;; m2).
Proof.
  intros H1 H2 this b. unfold and_then. specialize (H1 this b).
  destruct (m1 this b) as [this' b'|e this' b']; simpl in *; [| exact H1].
  now rewrite H2.
Qed.

Lemma no_signal_when (cond : CookieConsent → browser → bool) (m : method) :
  no_signal m → no_signal (when cond m).
Proof. intros H this b. unfold when. destruct (cond this b); [apply H | reflexivity]. Qed.

Lemma no_signal_effect (f : browser → browser) :
  (∀ b, gtag_calls (f b) = gtag_calls b) → no_signal (effect f).
Proof. intros H this b. apply H. Qed.

Lemma no_signal_applyTheme (theme : string) : no_signal (applyTheme theme).
Proof.
  intros this b. unfold applyTheme. cbv zeta.
  destruct (ClassList.add _ _); [reflexivity |].
  now destruct (getElementById _ _).
Qed.

Lemma no_signal_setLanguage (lang : string) : no_signal (setLanguage lang).
Proof. apply no_signal_when, no_signal_seq; now apply no_signal_effect. Qed.

Lemma no_signal_setFontSize (size : string) : no_signal (setFontSize size).
Proof. apply no_signal_when, no_signal_seq; now apply no_signal_effect. Qed.

Lemma no_signal_loadUserPreferences : no_signal loadUserPreferences.
Proof.
  apply no_signal_seq; intros this b; cbv beta zeta.
  - destruct (getCookie "preferred_language" b) as [v|]; [| reflexivity].
    destruct (truthy_string (Some v)); [apply no_signal_setLanguage | reflexivity].
  - destruct (getCookie "font_size" b) as [v|]; [| reflexivity].
    destruct (truthy_string (Some v)); [apply no_signal_setFontSize | reflexivity].
Qed.

Lemma no_signal_enableFunctionalCookies : no_signal enableFunctionalCookies.
Proof.
  apply no_signal_seq; [now apply no_signal_effect |].
  apply no_signal_seq; [| apply no_signal_loadUserPreferences].
  intros this b. cbv beta zeta.
  destruct (getCookie "site_theme" b) as [v|]; [| reflexivity].
  destruct (truthy_string (Some v)); [apply no_signal_applyTheme | reflexivity].
Qed.

(** X16. [applyCookieSettings] signals consent to [gtag] for the granted
    categories only: when [gtag] is defined, one update granting
    [analytics_storage] if the analytics flag is true, then one granting
    [ad_storage] if the marketing flag is true; nothing for the functional
    category, and nothing at all when [gtag] is not defined. When the
    functional flag is true, the stored theme must be one that can be
    applied. *)
Theorem applyCookieSettings_signals_consent (this : CookieConsent) (b : browser) :
  (allowed FUNCTIONAL this = true → stored_theme_applicable b = true) →
  ∃ b', applyCookieSettings this b = Normal this b'
        ∧ gtag_calls b' = gtag_calls b ++ consent_signals this b.
Proof.
  intros Happ. unfold applyCookieSettings.
  assert (Hfirst : ∃ b1, when (λ this _, allowed FUNCTIONAL this)
                              enableFunctionalCookies this b = Normal this b1
                         ∧ gtag_calls b1 = gtag_calls b
                         ∧ gtag_defined b1 = gtag_defined b).
  { pose proof (no_signal_when (λ this _, allowed FUNCTIONAL this) _
                  no_signal_enableFunctionalCookies this b) as Hq.
    unfold when in *. destruct (allowed FUNCTIONAL this) eqn:Hf.
    - destruct (logs_enableFunctionalCookies this b (Happ eq_refl))
        as (b1 & E & _ & V).
      rewrite E in *. exists b1. split; [reflexivity |]. split; [exact Hq |].
      unfold environment in V. now injection V.
    - exists b. now repeat split. }
  destruct Hfirst as (b1 & E1 & G1 & D1).
  unfold and_then at 1. rewrite E1.
  unfold consent_signals. rewrite <- G1, <- D1. clear E1 G1 D1 Happ.
  destruct b1 as [clk proto path title gt jar writes els cls lang fs con calls].
  cbn [gtag_calls gtag_defined].
  destruct (allowed ANALYTICS this) eqn:Ha, (allowed MARKETING this) eqn:Hm, gt;
    unfold and_then, when, enableAnalytics, enableMarketing, trackPageView, and_then,
      when, effect;
    repeat first
      [ rewrite Ha | rewrite Hm
      | progress cbv beta iota
      | progress cbn [gtag_defined gtag_calls console_add gtag] ];
    eexists; (split; [reflexivity |]);
    cbn [gtag_calls gtag console_add gtag_defined andb];
    rewrite ?app_nil_r, <- ?app_assoc; reflexivity.
Qed.

(** X17. A returning visitor: with the consent cookie stored, the
    constructor marks consent as given, merges the stored preferences over the
    defaults, runs the enable routines of the categories that are then true
    and of no other, and returns normally. The stored theme must be one that
    can be applied when the functional category is allowed. *)
Theorem returning_visitor_applies_stored_preferences (b : browser) :
  let loaded := loadPreferences JSON_parse (Controller true default_preferences) b in
  truthy_string (getCookie "cookie_consent" b) = true →
  (allowed FUNCTIONAL (outcome_this loaded) = true →
   stored_theme_applicable b = true) →
  ∃ b', constructor JSON_parse b = Normal (outcome_this loaded) b'
        ∧ consentGiven (outcome_this loaded) = true
        ∧ console b'
          = console (outcome_browser loaded)
            ++ settings_entries (outcome_this loaded) b.
Proof.
  cbv zeta. intros Hc Happ.
  assert (Hload : ∃ this1 b1,
             loadPreferences JSON_parse (Controller true default_preferences) b
             = Normal this1 b1
             ∧ consentGiven this1 = true
             ∧ getCookie "site_theme" b1 = getCookie "site_theme" b
             ∧ environment b1 = environment b).
  { unfold loadPreferences. cbv zeta.
    destruct (getCookie "cookie_preferences" b) as [text|];
      [| eexists; eexists; now repeat split].
    destruct (truthy_string (Some text)); [| eexists; eexists; now repeat split].
    destruct (JSON_parse text); eexists; eexists; now repeat split. }
  destruct Hload as (this1 & b1 & Hload & Hg & Ht & Hv).
  rewrite Hload in *. cbn [outcome_this outcome_browser] in *.
  assert (Happ1 : allowed FUNCTIONAL this1 = true → stored_theme_applicable b1 = true).
  { intros Hf. unfold stored_theme_applicable in *. rewrite Ht. now apply Happ. }
  destruct (logs_applyCookieSettings this1 b1 Happ1) as (b2 & E2 & C2 & _).
  destruct (setupEventListeners_effect this1 b2) as (b3 & E3 & _ & _ & _ & C3 & _).
  exists b3. split; [| split; [exact Hg |]].
  - unfold constructor, init. unfold and_then at 1. cbv zeta. rewrite Hc.
    unfold and_then at 1. unfold assign_this at 1. unfold and_then at 1.
    change (set_consentGiven true (Controller false default_preferences))
      with (Controller true default_preferences).
    now rewrite Hload, E2.
  - rewrite C3, C2. f_equal. unfold settings_entries.
    now rewrite (page_view_environment _ _ Hv).
Qed.

(** X18. The accept button works after a first visit: when the page loads
    without a consent cookie and the button is in the document without a
    listener of its own, a click on it leaves the controller with consent
    given and every category true, however the click ends. *)
Theorem accept_button_after_first_visit (b : browser) (button : element) :
  truthy_string (getCookie "cookie_consent" b) = false →
  getElementById "accept-all-cookies" b = Some button →
  listeners button = [] →
  ∃ p errors p' cc,
    DOMContentLoaded JSON_parse (Page None b) = (None, p)
    ∧ dispatchEvent JSON_stringify "click" "accept-all-cookies" p = (errors, p')
    ∧ window_cookieConsent p' = Some cc
    ∧ consentGiven cc = true
    ∧ preferences cc = all_preferences.
Proof.
  intros Hc Hb Hl.
  destruct (first_visit_effect JSON_parse b Hc) as (b' & E & _ & Hbind & _).
  specialize (Hbind "accept-all-cookies"%string ltac:(discriminate)).
  rewrite Hb in Hbind.
  change (bound_listener "accept-all-cookies") with (Some ("click"%string, OnAcceptAll))
    in Hbind.
  pose (o := acceptAll JSON_stringify (Controller false default_preferences) b').
  exists (Page (Some (Controller false default_preferences)) b'),
    (match o with Normal _ _ => [] | Thrown e _ _ => [e] end),
    (Page (Some (outcome_this o)) (outcome_browser o)), (outcome_this o).
  split; [| split; [| split; [reflexivity | split]]].
  - unfold DOMContentLoaded. cbn [window_browser]. now rewrite E.
  - unfold dispatchEvent. cbn [window_cookieConsent window_browser]. cbv beta iota.
    rewrite Hbind.
    cbn [fmap option_fmap option_map with_listener listeners]. rewrite Hl.
    cbn [app List.filter fst snd].
    change (String.eqb "click" "click") with true. cbv iota.
    cbn [map snd run_listeners run_handler]. fold o.
    now destruct o.
  - now destruct (consent_actions_persist JSON_stringify
                    (Controller false default_preferences) b' o (or_introl eq_refl)).
  - apply acceptAll_preferences.
Qed.

End VisitFacts.

Lemma loadPreferences_merges_witness :
  ∃ merged,
    loadPreferences Sample.JSON_parse (Controller true default_preferences)
                    Sample.returning_visitor
    = Normal (Controller true merged) Sample.returning_visitor
    ∧ merged !! FUNCTIONAL = Some (JBool true)
    ∧ merged !! ANALYTICS = Some (JBool false).
Proof.
  destruct (loadPreferences_merges Sample.JSON_parse
              (Controller true default_preferences) Sample.returning_visitor)
    as [H _].
  assert (Hne : Sample.JSON_stringify Sample.functional_only ≠ ""%string)
    by (vm_compute; discriminate).
  destruct (H (Sample.JSON_stringify Sample.functional_only)
              (JObject [(NECESSARY, JBool true); (FUNCTIONAL, JBool true);
                        (ANALYTICS, JBool false); (MARKETING, JBool false)])
              ltac:(vm_compute; reflexivity) Hne ltac:(vm_compute; reflexivity))
    as (merged & E & L).
  exists merged. split; [exact E |]. split; rewrite L; reflexivity.
Defined.

Lemma saveCustomPreferences_reads_checkboxes_witness :
  let b := Sample.browser_with []
             (<["functional-cookies" := Element "" true "" []]>
                (delete "analytics-cookies" Sample.full_dom)) in
  let saved := preferences
                 (outcome_this (saveCustomPreferences Sample.JSON_stringify
                                  (Controller false default_preferences) b)) in
  saved !! FUNCTIONAL = Some (JBool true)
  ∧ saved !! ANALYTICS = Some (JBool false)
  ∧ saved !! MARKETING = Some (JBool false)
  ∧ saved !! NECESSARY = Some (JBool true).
Proof.
  cbv zeta.
  destruct (saveCustomPreferences_reads_checkboxes Sample.JSON_stringify
              (Controller false default_preferences)
              (Sample.browser_with []
                 (<["functional-cookies" := Element "" true "" []]>
                    (delete "analytics-cookies" Sample.full_dom))))
    as (Hf & Ha & Hm & Hk).
  split; [| split; [| split]].
  - rewrite Hf. reflexivity.
  - rewrite Ha. reflexivity.
  - rewrite Hm. reflexivity.
  - rewrite (Hk NECESSARY) by discriminate. reflexivity.
Defined.

Lemma applyCookieSettings_without_functional_witness :
  ∃ b', applyCookieSettings (Controller true default_preferences)
                            Sample.returning_visitor
        = Normal (Controller true default_preferences) b'
        ∧ cookie_writes b' = []
        ∧ body_className b' = ""%string.
Proof.
  destruct (applyCookieSettings_without_functional
              (Controller true default_preferences) Sample.returning_visitor eq_refl)
    as (b' & E & W & _ & _ & C & _).
  exists b'. split; [exact E |]. split; [exact W | exact C].
Defined.

Lemma first_visit_shows_banner_witness :
  ∃ b', constructor Sample.JSON_parse (Sample.browser_with [] Sample.full_dom)
        = Normal (Controller false default_preferences) b'
        ∧ style_display <$> getElementById "cookie-banner" b' = Some "block"%string
        ∧ cookie_writes b' = [].
Proof.
  destruct (first_visit_shows_banner Sample.JSON_parse
              (Sample.browser_with [] Sample.full_dom) eq_refl)
    as (b' & E & D & _ & W & _).
  exists b'. split; [exact E |]. split; [exact D | exact W].
Defined.

Lemma openSettingsModal_shows_preferences_witness :
  ∃ b', openSettingsModal (Controller true Sample.functional_only)
                          Sample.returning_visitor
        = Normal (Controller true Sample.functional_only) b'
        ∧ checked <$> getElementById "functional-cookies" b' = Some true
        ∧ checked <$> getElementById "analytics-cookies" b' = Some false
        ∧ style_display <$> getElementById "cookie-settings-modal" b'
          = Some "block"%string.
Proof.
  destruct (openSettingsModal_shows_preferences
              (Controller true Sample.functional_only) Sample.returning_visitor
              Sample.element0 Sample.element0 Sample.element0 Sample.element0
              eq_refl eq_refl eq_refl eq_refl)
    as (b' & E & F & A & _ & D & _).
  exists b'. split; [exact E |]. split; [exact F |]. split; [exact A | exact D].
Defined.

Lemma consent_persisted_before_applying_witness :
  let b := Sample.browser_with
             [CookieStore.Cookie "site_theme" "my theme" None] Sample.full_dom in
  let o := acceptAll Sample.JSON_stringify (Controller false default_preferences) b in
  completes o = false
  ∧ consentGiven (outcome_this o) = true
  ∧ ∃ more,
      cookie_writes (outcome_browser o)
      = [year_cookie b "cookie_consent" "given";
         year_cookie b "cookie_preferences"
           (Sample.JSON_stringify (preferences (outcome_this o)))] ++ more.
Proof.
  cbv zeta. split; [vm_compute; reflexivity |].
  exact (consent_persisted_before_applying Sample.JSON_stringify
           (Controller false default_preferences)
           (Sample.browser_with
              [CookieStore.Cookie "site_theme" "my theme" None] Sample.full_dom)
           _ (or_introl eq_refl)).
Defined.

Lemma saveTheme_unusable_theme_witness :
  ∃ b', saveTheme "my theme" (Controller true Sample.functional_only)
                  Sample.returning_visitor
        = Thrown (DOMException "InvalidCharacterError")
                 (Controller true Sample.functional_only) b'
        ∧ cookie_writes b'
          = ["site_theme=my theme; expires=Tue, 02 Nov 2027 22:28:00 GMT; path=/; Secure; SameSite=Strict"%string].
Proof.
  destruct (saveTheme_unusable_theme "my theme" (Controller true Sample.functional_only)
              Sample.returning_visitor eq_refl eq_refl) as (b' & E & W & _).
  exists b'. split; [exact E | exact W].
Defined.

Lemma unusable_stored_theme_stops_construction_witness :
  let b := Sample.browser_with
             (Sample.decided_jar (Sample.JSON_stringify Sample.functional_only)
              ++ [CookieStore.Cookie "site_theme" "my theme" None])
             Sample.full_dom in
  ∃ b', DOMContentLoaded Sample.JSON_parse (Page None b)
        = (Some (DOMException "InvalidCharacterError"), Page None b')
        ∧ document_elements b' = Sample.full_dom.
Proof.
  cbv zeta.
  destruct (unusable_stored_theme_stops_construction Sample.JSON_parse
              (Sample.browser_with
                 (Sample.decided_jar (Sample.JSON_stringify Sample.functional_only)
                  ++ [CookieStore.Cookie "site_theme" "my theme" None])
                 Sample.full_dom)
              "my theme"
              ltac:(vm_compute; reflexivity) ltac:(vm_compute; reflexivity)
              ltac:(vm_compute; reflexivity) eq_refl)
    as (b' & E & D & _).
  exists b'. split; [exact E | exact D].
Defined.

Lemma applyCookieSettings_signals_consent_witness :
  let b := Browser 1793658480000 "https:" "/" "Pane e Pasta" true
                   [] [] Sample.full_dom "" "" "" [] [] in
  ∃ b', applyCookieSettings (Controller true all_preferences) b
        = Normal (Controller true all_preferences) b'
        ∧ gtag_calls b'
          = [GtagConsentUpdate "analytics_storage" "granted";
             GtagConsentUpdate "ad_storage" "granted"].
Proof.
  cbv zeta.
  exact (applyCookieSettings_signals_consent (Controller true all_preferences)
           (Browser 1793658480000 "https:" "/" "Pane e Pasta" true
                    [] [] Sample.full_dom "" "" "" [] [])
           (λ _, eq_refl)).
Defined.

Lemma returning_visitor_applies_stored_preferences_witness :
  ∃ b', constructor Sample.JSON_parse Sample.returning_visitor
        = Normal (outcome_this
                    (loadPreferences Sample.JSON_parse
                       (Controller true default_preferences) Sample.returning_visitor))
                 b'
        ∧ console b' = [functional_enabled].
Proof.
  destruct (returning_visitor_applies_stored_preferences Sample.JSON_parse
              Sample.returning_visitor
              ltac:(vm_compute; reflexivity)
              ltac:(intros _; vm_compute; reflexivity))
    as (b' & E & _ & C).
  exists b'. split; [exact E |]. rewrite C. vm_compute. reflexivity.
Defined.

Lemma accept_button_after_first_visit_witness :
  ∃ p errors p' cc,
    DOMContentLoaded Sample.JSON_parse (Page None (Sample.browser_with [] Sample.full_dom))
    = (None, p)
    ∧ dispatchEvent Sample.JSON_stringify "click" "accept-all-cookies" p = (errors, p')
    ∧ window_cookieConsent p' = Some cc
    ∧ consentGiven cc = true
    ∧ preferences cc = all_preferences.
Proof.
  exact (accept_button_after_first_visit Sample.JSON_parse Sample.JSON_stringify
           (Sample.browser_with [] Sample.full_dom) Sample.element0
           eq_refl eq_refl eq_refl).
Defined.
